(** * The SSHFS mount handler of multipass

    A shallow embedding of [src/sshfs_mount/sshfs_mount_handler.cpp]:
    the remote probes ([has_sshfs]), the remote installer
    ([install_sshfs_for]), the wait for the readiness token
    ([start_and_block_until_connected]) and the member functions of
    [SSHFSMountHandler] ([start_impl], [stop_impl], the constructor and
    the destructor).

    The handler talks to collaborators that live outside this file of the
    repository: the virtual machine, the SSH session, the [sshfs_server]
    subprocess, the gRPC reply stream and the logger.  They are modelled as
    an environment: every call to a collaborator is recorded in a trace, and
    the answer of a collaborator is a function of the trace so far. *)

From Stdlib Require Import String Ascii List ZArith Bool Lia.
Import ListNotations.
Local Open Scope string_scope.
Local Open Scope Z_scope.

(** ** Text *)

(** The two characters of the messages that have no plain spelling here. *)
Definition dq : string := String (ascii_of_nat 34) EmptyString.
Definition nl : string := String (ascii_of_nat 10) EmptyString.

(** [QByteArray::contains]: a case-sensitive search for [needle] at any
    offset of [hay]. *)
Fixpoint contains (needle hay : string) : bool :=
  String.prefix needle hay ||
  match hay with
  | EmptyString => false
  | String _ rest => contains needle rest
  end.

(** [QStringList::join]. *)
Fixpoint join (sep : string) (l : list string) : string :=
  match l with
  | [] => EmptyString
  | [x] => x
  | x :: rest => x ++ sep ++ join sep rest
  end.

(** ** Exceptions, results and the trace *)

(** The exception classes the file throws or catches.  All of them derive
    from [std::exception]. *)
Inductive exception : Type :=
| runtime_error (what_arg : string)
| SSHFSMissingError
| ExitlessSSHProcessException (what_arg : string)
| SSHException (what_arg : string).

(** An answer of a collaborator: a value, or an exception raised by it. *)
Inductive outcome (A : Type) : Type :=
| Value (a : A)
| Raises (e : exception).
Arguments Value {A} a.
Arguments Raises {A} e.

(** Ways in which a call does not come back at all. *)
Inductive stuck : Type :=
| null_dereference   (* [process->] on the empty [unique_ptr] *)
| waits_forever.     (* the event loop never quits *)

Inductive result (A : Type) : Type :=
| Ok (a : A)
| Throw (e : exception)
| Stuck (why : stuck).
Arguments Ok {A} a.
Arguments Throw {A} e.
Arguments Stuck {A} why.

Inductive Level : Type := lvl_error | lvl_warning | lvl_info | lvl_debug.

Definition category : string := "sshfs-mount-handler".

Definition id_mappings : Type := list (Z * Z).

(** [SSHFSServerConfig].  Its declaration is not part of this file; the
    fields are named after the nine positions of the initialiser in the
    constructor, [host] being the one [start_impl] assigns. *)
Record SSHFSServerConfig : Type := mkConfig {
  host : string;
  port : Z;
  username : string;
  instance : string;
  private_key : string;
  source_path : string;
  target_path : string;
  uid_mappings : id_mappings;
  gid_mappings : id_mappings
}.

Definition set_host (h : string) (c : SSHFSServerConfig) : SSHFSServerConfig :=
  mkConfig h (port c) (username c) (instance c) (private_key c)
           (source_path c) (target_path c) (uid_mappings c) (gid_mappings c).

(** Every call that leaves the handler, in the order it happens. *)
Inductive Event : Type :=
| Log (lvl : Level) (cat msg : string)            (* mpl::log *)
| SshHostname (answer : outcome string)           (* vm->ssh_hostname() *)
| SessionOpen (h : string) (p : Z) (user : string) (* SSHSession{...} *)
| SessionExec (cmd : string)                      (* session.exec(cmd) *)
| ServerWrite (alternative : nat) (reply_message : string) (* server->Write(reply) *)
| MakeProcess (cfg : SSHFSServerConfig)           (* platform::make_sshfs_server_process *)
| ProcessStart                                    (* process->start() *)
| ProcessTerminate                                (* process->terminate() *)
| WaitForFinished (msecs : Z).                    (* process->wait_for_finished(msecs) *)

Definition Trace : Type := list Event.

Definition log_event (r : Level * string) : Event := Log (fst r) category (snd r).

(** ** Collaborators *)

(** [mp::ProcessState]: an optional exit code and an optional error. *)
Record ProcessError : Type := mkProcessError {
  error_state : Z;
  error_message : string
}.

Record ProcessState : Type := mkProcessState {
  exit_code : option Z;
  error : option ProcessError
}.

(** What the subprocess delivers to the handler's thread. *)
Inductive ProcessEvent : Type :=
| standard_output (chunk : string)   (* ready_read_standard_output *)
| standard_error (chunk : string)
| error_occurred (err : Z) (error_string : string)
| finished (exit_state : ProcessState).

(** The [sshfs_server] child as the environment provides it: its command
    line, the events it delivers once started, in order, and how it reacts
    to a termination request: [on_terminate msecs] is its exit state when it
    is gone within [msecs] milliseconds, and [None] when it is still alive
    then. *)
Record Subprocess : Type := mkSubprocess {
  program : string;
  arguments : list string;
  script : list ProcessEvent;
  on_terminate : Z -> option ProcessState
}.

(** The [mp::Process] object: the child, the events not yet delivered, the
    bytes received and not yet read, the state [process_state()] reports,
    and the slots connected to its signals.  The slots this file leaves
    connected only log: a slot is the level and the message it logs. *)
Record Process : Type := mkProcess {
  child : Subprocess;
  pending : list ProcessEvent;
  running : bool;
  unread_stdout : string;
  unread_stderr : string;
  process_state : ProcessState;
  finished_slots : list (ProcessState -> Level * string);
  error_slots : list (Z -> string -> Level * string)
}.

Definition new_process (c : Subprocess) : Process :=
  mkProcess c [] false EmptyString EmptyString (mkProcessState None None) [] [].

(** [mp::SSHProcess], the handle [session.exec] returns: [ssh_exit_code t]
    is what [exit_code(t)] does ([None] for the default timeout), an exit
    code or an exception such as [ExitlessSSHProcessException]. *)
Record SSHProcess : Type := mkSSHProcess {
  ssh_exit_code : option Z -> outcome Z;
  ssh_std_output : string;
  ssh_std_error : string
}.

Record SSHSession : Type := mkSession {
  session_host : string;
  session_port : Z;
  session_username : string
}.

Record VirtualMachine : Type := mkVM {
  vm_name : string;
  ssh_port : Z;
  ssh_username : string;
  ssh_hostname : Trace -> outcome string
}.

Record SSHKeyProvider : Type := mkKeys {
  private_key_as_base64 : string
}.

Record VMMount : Type := mkMount {
  mount_source_path : string;
  mount_uid_mappings : id_mappings;
  mount_gid_mappings : id_mappings
}.

(** [ServerVariant]: one of several reply-stream pointers, any of which
    may be null.  [server_index] is the alternative held, [server_ptr] tells
    whether the pointer is set. *)
Record ServerVariant : Type := mkServer {
  server_index : nat;
  server_ptr : bool
}.

(** Everything else the file uses and does not define. *)
Record Platform : Type := mkPlatform {
  session_connect : Trace -> string -> Z -> string -> option exception;
  session_exec : Trace -> SSHSession -> string -> SSHProcess;
  make_sshfs_server_process : Trace -> SSHFSServerConfig -> Subprocess;
  failure_message : ProcessState -> string;
  completed_successfully : ProcessState -> bool;
  qenum_to_string : Z -> string;
  trim_end : string -> string;
  sshfs_missing_what : string
}.

(** ** The handler object and the state of a run *)

(** Modelled from the spec: the life-cycle state of the base class
    [MountHandler], whose declaration (with the public [start] and [stop]
    that wrap [start_impl] and [stop_impl]) is not part of this file.  The
    spec names the states [Constructed], [Starting], [Running], [Stopping]
    and [Stopped]. *)
Inductive Lifecycle : Type :=
| Constructed | Starting | Running | Stopping | Stopped.

(** [SSHFSMountHandler]: the members inherited from [MountHandler] that
    the file reads ([vm], [ssh_key_provider], [target]), the life-cycle
    state, and its own two members, [process] (a [unique_ptr], [None] when
    null) and [config]. *)
Record SSHFSMountHandler : Type := mkHandler {
  vm : VirtualMachine;
  ssh_key_provider : SSHKeyProvider;
  target : string;
  lifecycle : Lifecycle;
  process : option Process;
  config : SSHFSServerConfig
}.

Record World : Type := mkWorld {
  this : SSHFSMountHandler;
  trace : Trace
}.

Definition set_process (p : option Process) (h : SSHFSMountHandler) : SSHFSMountHandler :=
  mkHandler (vm h) (ssh_key_provider h) (target h) (lifecycle h) p (config h).

Definition set_config (c : SSHFSServerConfig) (h : SSHFSMountHandler) : SSHFSMountHandler :=
  mkHandler (vm h) (ssh_key_provider h) (target h) (lifecycle h) (process h) c.

Definition set_lifecycle (l : Lifecycle) (h : SSHFSMountHandler) : SSHFSMountHandler :=
  mkHandler (vm h) (ssh_key_provider h) (target h) l (process h) (config h).

(** The world after the events [evs] have been added to its trace. *)
Definition record_events (evs : list Event) (w : World) : World :=
  mkWorld (this w) (trace w ++ evs)%list.

(** ** A state and exception monad for the code *)

Definition M (A : Type) : Type := World -> result A * World.

Definition ret {A : Type} (a : A) : M A := fun w => (Ok a, w).

Definition bind {A B : Type} (m : M A) (f : A -> M B) : M B :=
  fun w =>
    match m w with
    | (Ok a, w') => f a w'
    | (Throw e, w') => (Throw e, w')
    | (Stuck y, w') => (Stuck y, w')
    end.

Definition throw {A : Type} (e : exception) : M A := fun w => (Throw e, w).

(** [try { body } catch (...) { ... }]: [handler e] is [None] when no
    catch clause matches [e]. *)
Definition try_catch {A : Type} (body : M A) (handler : exception -> option (M A)) : M A :=
  fun w =>
    match body w with
    | (Throw e, w') =>
        match handler e with
        | Some h => h w'
        | None => (Throw e, w')
        end
    | r => r
    end.

Declare Scope cpp_scope.
Delimit Scope cpp_scope with cpp.
Notation "x <- m ;; k" := (bind m (fun x => k))
  (at level 61, m at next level, right associativity) : cpp_scope.
Notation "m ;; k" := (bind m (fun _ => k))
  (at level 61, right associativity) : cpp_scope.
Local Open Scope cpp_scope.

Definition emit (ev : Event) : M unit := fun w => (Ok tt, record_events [ev] w).

Definition emit_all (evs : list Event) : M unit := fun w => (Ok tt, record_events evs w).

(** Ends a computation the way [r] says. *)
Definition finish {A : Type} (r : result A) : M A := fun w => (r, w).

Definition log (lvl : Level) (msg : string) : M unit := emit (Log lvl category msg).

Definition get_this : M SSHFSMountHandler := fun w => (Ok (this w), w).

Definition modify_this (f : SSHFSMountHandler -> SSHFSMountHandler) : M unit :=
  fun w => (Ok tt, mkWorld (f (this w)) (trace w)).

(** [e.what()]. *)
Definition what (P : Platform) (e : exception) : string :=
  match e with
  | runtime_error m => m
  | SSHFSMissingError => sshfs_missing_what P
  | ExitlessSSHProcessException m => m
  | SSHException m => m
  end.

(** ** Calls on the collaborators *)

Section Code.

Variable P : Platform.

(** [vm->ssh_hostname()]. *)
Definition vm_ssh_hostname (v : VirtualMachine) : M string :=
  fun w =>
    let answer := ssh_hostname v (trace w) in
    let w' := record_events [SshHostname answer] w in
    match answer with
    | Value h => (Ok h, w')
    | Raises e => (Throw e, w')
    end.

(** [SSHSession session{host, port, username, key_provider}]. *)
Definition SSHSession_ctor (h : string) (p : Z) (user : string) : M SSHSession :=
  fun w =>
    let w' := record_events [SessionOpen h p user] w in
    match session_connect P (trace w) h p user with
    | None => (Ok (mkSession h p user), w')
    | Some e => (Throw e, w')
    end.

(** [session.exec(cmd)]. *)
Definition exec (session : SSHSession) (cmd : string) : M SSHProcess :=
  fun w => (Ok (session_exec P (trace w) session cmd), record_events [SessionExec cmd] w).

(** [proc.exit_code()] and [proc.exit_code(timeout)]. *)
Definition ssh_process_exit_code (proc : SSHProcess) (timeout : option Z) : M Z :=
  fun w =>
    match ssh_exit_code proc timeout with
    | Value c => (Ok c, w)
    | Raises e => (Throw e, w)
    end.

(** [process->...]: the handler's subprocess, or a null dereference. *)
Definition deref_process : M Process :=
  fun w =>
    match process (this w) with
    | Some p => (Ok p, w)
    | None => (Stuck null_dereference, w)
    end.

Definition put_process (p : Process) : M unit := modify_this (set_process (Some p)).

(** [QObject::connect(process, &Process::finished, slot)]. *)
Definition connect_finished (slot : ProcessState -> Level * string) : M unit :=
  p <- deref_process ;;
  put_process (mkProcess (child p) (pending p) (running p) (unread_stdout p) (unread_stderr p)
                         (process_state p) (finished_slots p ++ [slot])%list (error_slots p)).

(** [QObject::connect(process, &Process::error_occurred, slot)]. *)
Definition connect_error_occurred (slot : Z -> string -> Level * string) : M unit :=
  p <- deref_process ;;
  put_process (mkProcess (child p) (pending p) (running p) (unread_stdout p) (unread_stderr p)
                         (process_state p) (finished_slots p) (error_slots p ++ [slot])%list).

(** [process->start()]: the child runs and its events become deliverable. *)
Definition process_start : M unit :=
  p <- deref_process ;;
  emit ProcessStart ;;
  put_process (mkProcess (child p) (script (child p)) true (unread_stdout p) (unread_stderr p)
                         (process_state p) (finished_slots p) (error_slots p)).

(** [process->read_all_standard_error()]: hands out the bytes received on
    standard error and leaves none behind. *)
Definition drain_stderr (p : Process) : Process :=
  mkProcess (child p) (pending p) (running p) (unread_stdout p) EmptyString
            (process_state p) (finished_slots p) (error_slots p).

Definition read_all_standard_error : M string :=
  p <- deref_process ;;
  put_process (drain_stderr p) ;;
  ret (unread_stderr p).

(** [platform::make_sshfs_server_process(config)]: a new process object
    for the child the platform provides. *)
Definition platform_make_sshfs_server_process (cfg : SSHFSServerConfig) : M Process :=
  fun w =>
    (Ok (new_process (make_sshfs_server_process P (trace w) cfg)),
     record_events [MakeProcess cfg] w).

(** [process->terminate()]. *)
Definition process_terminate : M unit :=
  _ <- deref_process ;;
  emit ProcessTerminate.

(** The [finished] signal reaches the connected slots. *)
Definition deliver_finished (p : Process) (st : ProcessState) : Process * list Event :=
  (mkProcess (child p) (pending p) false (unread_stdout p) (unread_stderr p)
             st (finished_slots p) (error_slots p),
   map (fun slot => log_event (slot st)) (finished_slots p)).

(** [process->wait_for_finished(msecs)]: [true] when the child is gone
    within [msecs] milliseconds. *)
Definition wait_for_finished (msecs : Z) : M bool :=
  p <- deref_process ;;
  emit (WaitForFinished msecs) ;;
  match on_terminate (child p) msecs with
  | Some st =>
      if running p then
        let '(p', logs) := deliver_finished p st in
        put_process p' ;;
        emit_all logs ;;
        ret true
      else ret true
  | None => ret false
  end.

(** ** The free functions of the file *)

(** The slot [start_and_block_until_connected] connects to
    [ready_read_standard_output], and [event_loop.exec()]: the events of the
    child are handled in order until a slot calls [quit].  A chunk of
    standard output joins the unread bytes and the slot runs:
    [read_all_standard_output()], like the [QProcess::readAllStandardOutput]
    behind it, hands out the unread bytes and leaves none behind, and the
    slot looks for the magic string in what it has just read.  [finished]
    runs the slots connected before (those of [start_impl]) and then
    [quit].  With no event left and no [quit] the loop waits on. *)
Fixpoint event_loop_exec (evs : list ProcessEvent) (p : Process) (logs : list Event)
  : result unit * Process * list Event :=
  match evs with
  | [] =>
      (Stuck waits_forever,
       mkProcess (child p) [] (running p) (unread_stdout p) (unread_stderr p)
                 (process_state p) (finished_slots p) (error_slots p),
       logs)
  | standard_output chunk :: rest =>
      let read := unread_stdout p ++ chunk in
      let p' := mkProcess (child p) rest (running p) EmptyString (unread_stderr p)
                          (process_state p) (finished_slots p) (error_slots p) in
      if contains "Connected" read then (Ok tt, p', logs)
      else event_loop_exec rest p' logs
  | standard_error chunk :: rest =>
      event_loop_exec rest
        (mkProcess (child p) rest (running p) (unread_stdout p) (unread_stderr p ++ chunk)
                   (process_state p) (finished_slots p) (error_slots p))
        logs
  | error_occurred err error_string :: rest =>
      event_loop_exec rest
        (mkProcess (child p) rest (running p) (unread_stdout p) (unread_stderr p)
                   (mkProcessState (exit_code (process_state p))
                                   (Some (mkProcessError err error_string)))
                   (finished_slots p) (error_slots p))
        (logs ++ map (fun slot => log_event (slot err error_string)) (error_slots p))%list
  | finished exit_state :: rest =>
      let '(p', slot_logs) := deliver_finished p exit_state in
      (Ok tt,
       mkProcess (child p') rest (running p') (unread_stdout p') (unread_stderr p')
                 (process_state p') (finished_slots p') (error_slots p'),
       (logs ++ slot_logs)%list)
  end.

(** [start_and_block_until_connected(process)], called on the handler's
    [process.get()]. *)
Definition start_and_block_until_connected : M unit :=
  process_start ;;
  p <- deref_process ;;
  let '(r, p', logs) := event_loop_exec (pending p) p [] in
  put_process p' ;;
  emit_all logs ;;
  finish r.

Definition snap_missing_message (name : string) : string :=
  "Snap support needs to be installed in '" ++ name ++ "' in order to support mounts." ++ nl ++
  "Please see https://docs.snapcraft.io/installing-snapd for information on" ++ nl ++
  "how to install snap support for your instance's distribution." ++ nl ++ nl ++
  "If your distribution's instructions specify enabling classic snap support," ++ nl ++
  "please do that as well." ++ nl ++ nl ++
  "Alternatively, install `sshfs` manually inside the instance.".

Definition classic_missing_message (name : string) : string :=
  "Classic snap support is not enabled for '" ++ name ++ "'!" ++ nl ++ nl ++
  "Please see https://docs.snapcraft.io/installing-snapd for information on" ++ nl ++
  "how to enable classic snap support for your instance's distribution.".

Definition has_sshfs (name : string) (session : SSHSession) : M bool :=
  (* Check if snap support is installed in the instance *)
  which_snap <- exec session "which snap" ;;
  c1 <- ssh_process_exit_code which_snap None ;;
  if negb (c1 =? 0) then
    log lvl_warning ("Snap support is not installed in '" ++ name ++ "'") ;;
    throw (runtime_error (snap_missing_message name))
  else
    (* Check if multipass-sshfs is already installed *)
    snap_list <- exec session "sudo snap list multipass-sshfs" ;;
    c2 <- ssh_process_exit_code snap_list None ;;
    if c2 =? 0 then
      log lvl_debug ("The multipass-sshfs snap is already installed on '" ++ name ++ "'") ;;
      ret true
    else
      (* Check if /snap exists for classic snap support *)
      snap_dir <- exec session "[ -e /snap ]" ;;
      c3 <- ssh_process_exit_code snap_dir None ;;
      if negb (c3 =? 0) then
        log lvl_warning ("Classic snap support symlink is needed in '" ++ name ++ "'") ;;
        throw (runtime_error (classic_missing_message name))
      else ret false.

Definition install_sshfs_for (name : string) (session : SSHSession) (timeout : Z) : M unit :=
  try_catch
    (log lvl_info ("Installing the multipass-sshfs snap in '" ++ name ++ "'") ;;
     proc <- exec session "sudo snap install multipass-sshfs" ;;
     c <- ssh_process_exit_code proc (Some timeout) ;;
     if negb (c =? 0) then
       let error_msg := ssh_std_error proc in
       log lvl_warning ("Failed to install 'multipass-sshfs': " ++ trim_end P error_msg) ;;
       throw SSHFSMissingError
     else ret tt)
    (fun e =>
       match e with
       | ExitlessSSHProcessException _ =>
           Some (log lvl_info ("Timeout while installing 'multipass-sshfs' in '" ++ name ++ "'") ;;
                 throw SSHFSMissingError)
       | _ => None
       end).

(** ** The member functions of [SSHFSMountHandler] *)

Definition SSHFSMountHandler_ctor (v : VirtualMachine) (keys : SSHKeyProvider)
           (tgt : string) (mount : VMMount) (tr : Trace) : World :=
  mkWorld
    (mkHandler v keys tgt Constructed None
       (mkConfig EmptyString (ssh_port v) (ssh_username v) (vm_name v)
                 (private_key_as_base64 keys) (mount_source_path mount) tgt
                 (mount_uid_mappings mount) (mount_gid_mappings mount)))
    (tr ++ [Log lvl_info category
              ("initializing mount " ++ mount_source_path mount ++ " => " ++ tgt ++
               " in '" ++ vm_name v ++ "'")])%list.

(** The lambda [start_impl] hands to [std::visit]. *)
Definition visitor (server : ServerVariant) : M unit :=
  if server_ptr server then
    emit (ServerWrite (server_index server) "Enabling support for mounting")
  else ret tt.

(** [start_impl], its first statement: the session to the instance. *)
Definition start_impl_session : M SSHSession :=
  h <- get_this ;;
  hostname <- vm_ssh_hostname (vm h) ;;
  SSHSession_ctor hostname (ssh_port (vm h)) (ssh_username (vm h)).

(** [start_impl], first part: the session, the probes and the installer. *)
Definition start_impl_prepare (server : ServerVariant) (timeout : Z) : M unit :=
  h <- get_this ;;
  session <- start_impl_session ;;
  ready <- has_sshfs (vm_name (vm h)) session ;;
  if negb ready then
    visitor server ;;
    install_sshfs_for (vm_name (vm h)) session timeout
  else ret tt.

(** [start_impl], second part: the host, the subprocess, its logging slots
    and the wait. *)
Definition start_impl_launch : M unit :=
  h <- get_this ;;
  (* Can't obtain hostname/IP address until instance is running *)
  hostname <- vm_ssh_hostname (vm h) ;;
  modify_this (set_config (set_host hostname (config h))) ;;
  made <- platform_make_sshfs_server_process (set_host hostname (config h)) ;;
  put_process made ;;
  connect_finished (fun exit_state =>
    if completed_successfully P exit_state then
      (lvl_info,
       "Mount " ++ dq ++ target h ++ dq ++ " in instance '" ++ vm_name (vm h) ++ "' has stopped")
    else
      (* not error as it failing can indicate we need to install sshfs in the VM *)
      (lvl_warning,
       "Mount " ++ dq ++ target h ++ dq ++ " in instance '" ++ vm_name (vm h) ++
       "' has stopped unsuccessfully: " ++ failure_message P exit_state)) ;;
  connect_error_occurred (fun err error_string =>
    (lvl_error,
     "There was an error with sshfs_server for instance '" ++ vm_name (vm h) ++
     "' with path " ++ dq ++ target h ++ dq ++ ": " ++ qenum_to_string P err ++
     " - " ++ error_string)) ;;
  p <- deref_process ;;
  log lvl_info ("process program '" ++ program (child p) ++ "'") ;;
  log lvl_info ("process arguments '" ++ join ", " (arguments (child p)) ++ "'") ;;
  start_and_block_until_connected.

(** [process_state.exit_code == 9] on the optional exit code. *)
Definition exit_code_is (st : ProcessState) (code : Z) : bool :=
  match exit_code st with
  | Some c => c =? code
  | None => false
  end.

(** An optional in a condition: whether it holds a value. *)
Definition has_value {A : Type} (o : option A) : bool :=
  match o with
  | Some _ => true
  | None => false
  end.

(** [start_impl], last part: check in case sshfs_server stopped. *)
Definition start_impl_check : M unit :=
  p <- deref_process ;;
  let state := process_state p in
  if exit_code_is state 9 then (* Magic number returned by sshfs_server *)
    throw SSHFSMissingError
  else if has_value (exit_code state) || has_value (error state) then
    err <- read_all_standard_error ;;
    throw (runtime_error (failure_message P state ++ ": " ++ err))
  else ret tt.

Definition start_impl (server : ServerVariant) (timeout : Z) : M unit :=
  start_impl_prepare server timeout ;;
  start_impl_launch ;;
  start_impl_check.

Definition stop_impl : M unit :=
  h <- get_this ;;
  log lvl_info ("Stopping mount " ++ dq ++ target h ++ dq ++ " in instance '" ++
                vm_name (vm h) ++ "'") ;;
  process_terminate ;;
  done <- wait_for_finished 5000 ;;
  if negb done then
    err <- read_all_standard_error ;;
    throw (runtime_error ("Failed to terminate SSHFS mount process: " ++ err))
  else ret tt.

(** Modelled from the spec: [MountHandler::stop], the public operation of
    the base class that wraps [stop_impl]; its definition is not part of
    this file.  The spec: [stop()] transitions to [Stopping], terminates
    the subprocess with the fixed deadline, fails on timeout and otherwise
    transitions to [Stopped]; calling it again after a successful [stop()]
    is a no-op. *)
Definition stop : M unit :=
  h <- get_this ;;
  match lifecycle h with
  | Stopped => ret tt
  | _ =>
      modify_this (set_lifecycle Stopping) ;;
      stop_impl ;;
      modify_this (set_lifecycle Stopped)
  end.

(** [~SSHFSMountHandler()], over the [stop] it calls. *)
Definition SSHFSMountHandler_dtor (stop_fn : M unit) : M unit :=
  try_catch stop_fn
    (fun e =>
       Some (h <- get_this ;;
             log lvl_warning ("Failed to gracefully stop mount " ++ dq ++ target h ++ dq ++
                              " in instance '" ++ vm_name (vm h) ++ "': " ++ what P e))).

End Code.

(** ** Observations on traces *)

Definition is_install (ev : Event) : bool :=
  match ev with
  | SessionExec cmd => String.eqb cmd "sudo snap install multipass-sshfs"
  | _ => false
  end.

Definition is_notification (ev : Event) : bool :=
  match ev with
  | ServerWrite _ _ => true
  | _ => false
  end.

Definition is_hostname_query (ev : Event) : bool :=
  match ev with
  | SshHostname _ => true
  | _ => false
  end.

Definition is_launch (ev : Event) : bool :=
  match ev with
  | MakeProcess _ => true
  | _ => false
  end.

Definition is_terminate (ev : Event) : bool :=
  match ev with
  | ProcessTerminate => true
  | _ => false
  end.

(** How many events of a kind a trace holds. *)
Definition occurrences (kind : Event -> bool) (tr : Trace) : nat :=
  length (filter kind tr).

(** All standard output a list of subprocess events carries. *)
Fixpoint stdout_received (evs : list ProcessEvent) : string :=
  match evs with
  | [] => EmptyString
  | standard_output chunk :: rest => chunk ++ stdout_received rest
  | _ :: rest => stdout_received rest
  end.

(** Whether an event makes the loop of [start_and_block_until_connected]
    quit when no byte is unread: a chunk that holds the magic string, or
    the end of the subprocess. *)
Definition wakes (ev : ProcessEvent) : bool :=
  match ev with
  | standard_output chunk => contains "Connected" chunk
  | finished _ => true
  | _ => false
  end.

(** The kinds of events the parts of the code emit. *)
Definition is_log (ev : Event) : bool :=
  match ev with
  | Log _ _ _ => true
  | _ => false
  end.

Definition is_session_setup (ev : Event) : bool :=
  match ev with
  | SshHostname _ | SessionOpen _ _ _ => true
  | _ => false
  end.

Definition is_probe_traffic (ev : Event) : bool :=
  match ev with
  | Log _ _ _ => true
  | SessionExec _ => negb (is_install ev)
  | _ => false
  end.

Definition is_process_traffic (ev : Event) : bool :=
  match ev with
  | Log _ _ _ | ProcessStart => true
  | _ => false
  end.

(** A computation that adds to the trace only events of one kind. *)
Definition emits_only {A : Type} (kind : Event -> bool) (m : M A) : Prop :=
  forall w, exists evs,
    trace (snd (m w)) = (trace w ++ evs)%list /\ forallb kind evs = true.

(** A computation that leaves the handler object as it is. *)
Definition keeps_this {A : Type} (m : M A) : Prop :=
  forall w, this (snd (m w)) = this w.

Definition is_prepare_traffic (ev : Event) : bool :=
  match ev with
  | SessionOpen _ _ _ | SessionExec _ | ServerWrite _ _ | Log _ _ _ => true
  | _ => false
  end.

Definition is_launch_traffic (ev : Event) : bool :=
  match ev with
  | SshHostname _ | MakeProcess _ | Log _ _ _ | ProcessStart => true
  | _ => false
  end.

(** An event at which the loop of [start_and_block_until_connected] waits
    on. *)
Definition sleeps (ev : ProcessEvent) : bool := negb (wakes ev).

(** ** Sample environments *)

Module Sample.

Definition exits (code : Z) (err : string) : SSHProcess :=
  mkSSHProcess (fun _ => Value code) EmptyString err.

Definition hangs : SSHProcess :=
  mkSSHProcess (fun _ => Raises (ExitlessSSHProcessException "no exit status"))
               EmptyString EmptyString.

(** A remote side that answers each of the four commands in a fixed way. *)
Definition remote (which_snap snap_list snap_dir install : SSHProcess)
  : Trace -> SSHSession -> string -> SSHProcess :=
  fun _ _ cmd =>
    if String.eqb cmd "which snap" then which_snap
    else if String.eqb cmd "sudo snap list multipass-sshfs" then snap_list
    else if String.eqb cmd "[ -e /snap ]" then snap_dir
    else install.

Definition describe (st : ProcessState) : string :=
  match error st, exit_code st with
  | Some e, _ => error_message e
  | None, Some _ => "Process returned exit code"
  | None, None => EmptyString
  end.

Definition succeeded (st : ProcessState) : bool :=
  match error st, exit_code st with
  | None, Some c => c =? 0
  | _, _ => false
  end.

Definition platform (which_snap snap_list snap_dir install : SSHProcess)
           (server : Subprocess) : Platform :=
  mkPlatform (fun _ _ _ _ => None)
             (remote which_snap snap_list snap_dir install)
             (fun _ _ => server)
             describe succeeded
             (fun _ => "ProcessError") (fun s => s) "sshfs missing".

(** A machine whose address changes between the first and the later
    queries. *)
Definition machine : VirtualMachine :=
  mkVM "primary" 22 "ubuntu"
       (fun tr => if (occurrences is_hostname_query tr =? 0)%nat
                  then Value "10.0.0.1" else Value "10.0.0.2").

Definition keys : SSHKeyProvider := mkKeys "a2V5".

Definition mount : VMMount := mkMount "/home/me/src" [(1000, 1000)] [(1000, 1000)].

Definition fresh : World := SSHFSMountHandler_ctor machine keys "/mnt/src" mount [].

Definition server (events : list ProcessEvent) (gone_in : Z) : Subprocess :=
  mkSubprocess "sshfs_server" ["primary"; "/mnt/src"] events
               (fun msecs => if gone_in <=? msecs then Some (mkProcessState (Some 0) None)
                             else None).

Definition sink : ServerVariant := mkServer 2 true.
Definition no_sink : ServerVariant := mkServer 2 false.

(** Installed already, and a server that connects. *)
Definition ready_platform (events : list ProcessEvent) (gone_in : Z) : Platform :=
  platform (exits 0 EmptyString) (exits 0 EmptyString) (exits 0 EmptyString)
           (exits 0 EmptyString) (server events gone_in).

(** Not installed, installable. *)
Definition installable_platform (install : SSHProcess) : Platform :=
  platform (exits 0 EmptyString) (exits 1 "error: no matching snaps installed")
           (exits 0 EmptyString) install (server [standard_output "Connected"] 100).

(** A server that warns on standard error, connects, and is gone
    [gone_in] milliseconds after it is asked to terminate. *)
Definition mounting (gone_in : Z) : Platform :=
  ready_platform [standard_error "fuse: warning"; standard_output "Connected"] gone_in.

(** The world after a successful start against [mounting gone_in]. *)
Definition mounted (gone_in : Z) : World :=
  snd (start_impl (mounting gone_in) sink 300000 fresh).

(** A server that ends with the events [events] before it connects. *)
Definition failing (events : list ProcessEvent) : Platform := ready_platform events 100.

(** The world when the wait of [start_impl] against [failing events] is
    over. *)
Definition waited (events : list ProcessEvent) : World :=
  snd ((start_impl_prepare (failing events) sink 300000 ;;
        start_impl_launch (failing events)) fresh).

Definition the_process (w : World) : Process :=
  match process (this w) with
  | Some p => p
  | None => new_process (server [] 0)
  end.

(** A world whose handler holds a subprocess, not yet started, that will
    deliver [events]. *)
Definition launched (events : list ProcessEvent) : World :=
  mkWorld (set_process (Some (new_process (server events 100))) (this fresh)) (trace fresh).

(** The magic string in two pieces. *)
Definition split_token : list ProcessEvent :=
  [standard_output "Conn"; standard_output "ected"].

(** A machine that refuses the connection. *)
Definition refusing_platform : Platform :=
  mkPlatform (fun _ _ _ _ => Some (SSHException "Connection refused"))
             (remote (exits 0 EmptyString) (exits 0 EmptyString) (exits 0 EmptyString)
                     (exits 0 EmptyString))
             (fun _ _ => server [] 100)
             describe succeeded
             (fun _ => "ProcessError") (fun s => s) "sshfs missing".

(** An instance without snap support. *)
Definition snapless_platform : Platform :=
  platform (exits 1 EmptyString) (exits 1 EmptyString) (exits 1 EmptyString)
           (exits 1 EmptyString) (server [] 100).

Definition session : SSHSession := mkSession "10.0.0.1" 22 "ubuntu".

End Sample.

(** ** Further observations *)

Definition is_wait (ev : Event) : bool :=
  match ev with
  | WaitForFinished _ => true
  | _ => false
  end.

(** The remote commands of a trace, in order. *)
Fixpoint commands (tr : Trace) : list string :=
  match tr with
  | [] => []
  | SessionExec cmd :: rest => cmd :: commands rest
  | _ :: rest => commands rest
  end.

(** The three commands of [has_sshfs], in the order of the source. *)
Definition probes : list string :=
  ["which snap"; "sudo snap list multipass-sshfs"; "[ -e /snap ]"].

(** An event of the subprocess that neither makes the loop quit nor
    reports an error: output without the magic string. *)
Definition is_quiet (ev : ProcessEvent) : bool :=
  match ev with
  | standard_output chunk => negb (contains "Connected" chunk)
  | standard_error _ => true
  | _ => false
  end.

(** The members of the handler that come from the base class. *)
Definition same_members (h' h : SSHFSMountHandler) : Prop :=
  vm h' = vm h /\ ssh_key_provider h' = ssh_key_provider h
  /\ target h' = target h /\ lifecycle h' = lifecycle h.

(** The record the [finished] slot of [start_impl] logs. *)
Definition stopped_record (P : Platform) (h : SSHFSMountHandler) (st : ProcessState) : Event :=
  if completed_successfully P st then
    Log lvl_info category
        ("Mount " ++ dq ++ target h ++ dq ++ " in instance '" ++ vm_name (vm h) ++
         "' has stopped")
  else
    Log lvl_warning category
        ("Mount " ++ dq ++ target h ++ dq ++ " in instance '" ++ vm_name (vm h) ++
         "' has stopped unsuccessfully: " ++ failure_message P st).

(** What [start_impl] adds to the trace from the second address query to
    the start of the subprocess [child]. *)
Definition launch_events (address : string) (cfg : SSHFSServerConfig) (c : Subprocess)
  : list Event :=
  [SshHostname (Value address);
   MakeProcess cfg;
   Log lvl_info category ("process program '" ++ program c ++ "'");
   Log lvl_info category ("process arguments '" ++ join ", " (arguments c) ++ "'");
   ProcessStart].

Module Scenario.

(** A machine that gives its address once and is gone afterwards. *)
Definition vanishing_machine : VirtualMachine :=
  mkVM "primary" 22 "ubuntu"
       (fun tr => if (occurrences is_hostname_query tr =? 0)%nat
                  then Value "10.0.0.1"
                  else Raises (SSHException "instance is not running")).

Definition vanishing : World :=
  SSHFSMountHandler_ctor vanishing_machine Sample.keys "/mnt/src" Sample.mount [].

(** A remote command whose exit code cannot be read. *)
Definition broken_channel : SSHProcess :=
  mkSSHProcess (fun _ => Raises (SSHException "channel closed")) EmptyString EmptyString.

Definition ok : SSHProcess := Sample.exits 0 EmptyString.
Definition no : SSHProcess := Sample.exits 1 EmptyString.

End Scenario.

(** All standard error a list of subprocess events carries. *)
Fixpoint stderr_received (evs : list ProcessEvent) : string :=
  match evs with
  | [] => EmptyString
  | standard_error chunk :: rest => chunk ++ stderr_received rest
  | _ :: rest => stderr_received rest
  end.

(** The process object of the handler [h] at the moment the event loop of
    [start_impl] begins: the child [c] started, nothing received, and the
    two logging slots of [start_impl] connected. *)
Definition started_process (P : Platform) (h : SSHFSMountHandler) (c : Subprocess) : Process :=
  mkProcess c (script c) true EmptyString EmptyString (mkProcessState None None)
    [fun exit_state =>
       if completed_successfully P exit_state then
         (lvl_info,
          "Mount " ++ dq ++ target h ++ dq ++ " in instance '" ++ vm_name (vm h) ++
          "' has stopped")
       else
         (lvl_warning,
          "Mount " ++ dq ++ target h ++ dq ++ " in instance '" ++ vm_name (vm h) ++
          "' has stopped unsuccessfully: " ++ failure_message P exit_state)]
    [fun err error_string =>
       (lvl_error,
        "There was an error with sshfs_server for instance '" ++ vm_name (vm h) ++
        "' with path " ++ dq ++ target h ++ dq ++ ": " ++ qenum_to_string P err ++
        " - " ++ error_string)].

(** The record the [error_occurred] slot of [start_impl] logs. *)
Definition error_record (P : Platform) (h : SSHFSMountHandler) (err : Z) (msg : string)
  : Event :=
  Log lvl_error category
      ("There was an error with sshfs_server for instance '" ++ vm_name (vm h) ++
       "' with path " ++ dq ++ target h ++ dq ++ ": " ++ qenum_to_string P err ++
       " - " ++ msg).

(** The records for the errors among the events [evs], in order. *)
Fixpoint error_records (P : Platform) (h : SSHFSMountHandler) (evs : list ProcessEvent)
  : list Event :=
  match evs with
  | [] => []
  | error_occurred err msg :: rest => error_record P h err msg :: error_records P h rest
  | _ :: rest => error_records P h rest
  end.

(** ** Basic facts *)

Lemma record_events_app (evs1 evs2 : list Event) (w : World) :
  record_events evs2 (record_events evs1 w) = record_events (evs1 ++ evs2)%list w.
Proof.
  unfold record_events; simpl. now rewrite <- app_assoc.
Qed.

Lemma record_events_nil (w : World) : record_events [] w = w.
Proof.
  destruct w as [h tr]. unfold record_events; simpl. now rewrite app_nil_r.
Qed.

Lemma prefix_iff (needle hay : string) :
  String.prefix needle hay = true <-> exists post, hay = needle ++ post.
Proof.
  revert hay. induction needle as [|a needle IH]; intros hay.
  - split; [intros _; now exists hay | intros _; now destruct hay].
  - destruct hay as [|b hay]; cbn [String.prefix].
    + split; [discriminate | intros (post & H); discriminate].
    + destruct (ascii_dec a b) as [->|Hab].
      * rewrite IH. split; intros (post & H); exists post;
          [now rewrite H | simpl in H; now inversion H].
      * split; [discriminate | intros (post & H); simpl in H; inversion H; congruence].
Qed.

(** [contains needle hay] holds exactly when [needle] occurs in [hay],
    character for character, at some offset. *)
Lemma contains_iff (needle hay : string) :
  contains needle hay = true <-> exists pre post, hay = pre ++ needle ++ post.
Proof.
  induction hay as [|c hay IH]; cbn [contains]; rewrite orb_true_iff, prefix_iff.
  - split.
    + intros [(post & H)|H]; [|discriminate]. now exists EmptyString, post.
    + intros (pre & post & H). left. destruct pre; [now exists post | discriminate].
  - rewrite IH. split.
    + intros [(post & H)|(pre & post & H)].
      * now exists EmptyString, post.
      * exists (String c pre), post. simpl. now rewrite H.
    + intros (pre & post & H). destruct pre as [|c' pre].
      * left. now exists post.
      * right. inversion H. now exists pre, post.
Qed.

Lemma occurrences_app (kind : Event -> bool) (tr1 tr2 : Trace) :
  occurrences kind (tr1 ++ tr2)%list = (occurrences kind tr1 + occurrences kind tr2)%nat.
Proof.
  unfold occurrences. now rewrite filter_app, length_app.
Qed.

Lemma occurrences_none (kind other : Event -> bool) (tr : Trace) :
  (forall ev, other ev = true -> kind ev = false) ->
  forallb other tr = true -> occurrences kind tr = 0%nat.
Proof.
  intros Hdisjoint. unfold occurrences.
  induction tr as [|ev tr IH]; simpl; [reflexivity|].
  intros H. apply andb_prop in H. destruct H as [Hev Htr].
  rewrite (Hdisjoint _ Hev). auto.
Qed.

Lemma forallb_weaken (k1 k2 : Event -> bool) (tr : Trace) :
  (forall ev, k1 ev = true -> k2 ev = true) ->
  forallb k1 tr = true -> forallb k2 tr = true.
Proof.
  intros Hk. induction tr as [|ev tr IH]; simpl; [reflexivity|].
  intros H. apply andb_prop in H. destruct H as [Hev Htr].
  now rewrite (Hk _ Hev), IH.
Qed.

Lemma eqb_nonzero (c : Z) : c <> 0 -> (c =? 0) = false.
Proof. apply Z.eqb_neq. Qed.

(** Unfolds the monad and the calls on the session. *)
Ltac run_session :=
  unfold bind, ret, throw, try_catch, log, emit, exec, ssh_process_exit_code.

(** ** The probes and the installer *)

Section Remote.

Variable P : Platform.
Variables (name : string) (session : SSHSession).

(** C2: [has_sshfs] runs its probes in a fixed order and stops at the first
    that decides.  A non-zero exit code of [which snap] is the
    unsupported-environment error after that one command; otherwise exit
    code zero of [snap list] is the answer "ready" after two commands;
    otherwise a non-zero exit code of the test for [/snap] is the
    unsupported-environment error; otherwise the answer is "not ready".
    Only exit codes enter: a remote side that gives the same exit codes and
    any other output leads to the same result and the same trace. *)
Theorem has_sshfs_classifies_by_exit_code (w : World) :
  let w1 := record_events [SessionExec "which snap"] w in
  let w2 := record_events [SessionExec "sudo snap list multipass-sshfs"] w1 in
  let w3 := record_events [SessionExec "[ -e /snap ]"] w2 in
  let probe1 := ssh_exit_code (session_exec P (trace w) session "which snap") None in
  let probe2 :=
    ssh_exit_code (session_exec P (trace w1) session "sudo snap list multipass-sshfs") None in
  let probe3 := ssh_exit_code (session_exec P (trace w2) session "[ -e /snap ]") None in
  (forall c1, probe1 = Value c1 -> c1 <> 0 ->
     has_sshfs P name session w =
       (Throw (runtime_error (snap_missing_message name)),
        record_events [Log lvl_warning category
                         ("Snap support is not installed in '" ++ name ++ "'")] w1))
  /\ (probe1 = Value 0 -> probe2 = Value 0 ->
        has_sshfs P name session w =
          (Ok true,
           record_events [Log lvl_debug category
                            ("The multipass-sshfs snap is already installed on '" ++ name ++ "'")]
                         w2))
  /\ (forall c2 c3, probe1 = Value 0 -> probe2 = Value c2 -> c2 <> 0 ->
        probe3 = Value c3 -> c3 <> 0 ->
        has_sshfs P name session w =
          (Throw (runtime_error (classic_missing_message name)),
           record_events [Log lvl_warning category
                            ("Classic snap support symlink is needed in '" ++ name ++ "'")] w3))
  /\ (forall c2, probe1 = Value 0 -> probe2 = Value c2 -> c2 <> 0 -> probe3 = Value 0 ->
        has_sshfs P name session w = (Ok false, w3))
  /\ (forall P' : Platform,
        (forall tr cmd, ssh_exit_code (session_exec P' tr session cmd) None =
                        ssh_exit_code (session_exec P tr session cmd) None) ->
        has_sshfs P' name session w = has_sshfs P name session w).
Proof.
  intros w1 w2 w3 probe1 probe2 probe3.
  split; [|split; [|split; [|split]]].
  - intros c1 H1 Hc. unfold has_sshfs. run_session.
    fold w1 probe1. rewrite H1, (eqb_nonzero _ Hc). reflexivity.
  - intros H1 H2. unfold has_sshfs. run_session.
    fold w1 probe1. rewrite H1. cbn [Z.eqb negb]. fold w2 probe2. rewrite H2. reflexivity.
  - intros c2 c3 H1 H2 Hc2 H3 Hc3. unfold has_sshfs. run_session.
    fold w1 probe1. rewrite H1. cbn [Z.eqb negb]. fold w2 probe2.
    rewrite H2, (eqb_nonzero _ Hc2). fold w3 probe3.
    rewrite H3, (eqb_nonzero _ Hc3). reflexivity.
  - intros c2 H1 H2 Hc2 H3. unfold has_sshfs. run_session.
    fold w1 probe1. rewrite H1. cbn [Z.eqb negb]. fold w2 probe2.
    rewrite H2, (eqb_nonzero _ Hc2). fold w3 probe3.
    rewrite H3. reflexivity.
  - intros P' Hsame. unfold has_sshfs. run_session.
    rewrite Hsame. fold w1 probe1. destruct probe1 as [c1|e1]; [|reflexivity].
    destruct (negb (c1 =? 0)); [reflexivity|].
    rewrite Hsame. fold w2 probe2. destruct probe2 as [c2|e2]; [|reflexivity].
    destruct (c2 =? 0); [reflexivity|].
    rewrite Hsame. reflexivity.
Qed.

Variable timeout : Z.

(** C3: [install_sshfs_for] fails with [SSHFSMissingError], and with
    nothing else, both when the install command exits non-zero within the
    timeout and when the wait for its exit code ends with the exitless
    exception; the caller sees the same exception in both cases.  When the
    command exits with zero the installer returns. *)
Theorem install_sshfs_for_outcomes (w : World) :
  let announce :=
    Log lvl_info category ("Installing the multipass-sshfs snap in '" ++ name ++ "'") in
  let proc :=
    session_exec P (trace w ++ [announce])%list session "sudo snap install multipass-sshfs" in
  let w1 := record_events [announce; SessionExec "sudo snap install multipass-sshfs"] w in
  (forall c, ssh_exit_code proc (Some timeout) = Value c -> c <> 0 ->
     install_sshfs_for P name session timeout w =
       (Throw SSHFSMissingError,
        record_events [Log lvl_warning category
                         ("Failed to install 'multipass-sshfs': " ++
                          trim_end P (ssh_std_error proc))] w1))
  /\ (forall m, ssh_exit_code proc (Some timeout) = Raises (ExitlessSSHProcessException m) ->
        install_sshfs_for P name session timeout w =
          (Throw SSHFSMissingError,
           record_events [Log lvl_info category
                            ("Timeout while installing 'multipass-sshfs' in '" ++ name ++ "'")]
                         w1))
  /\ (ssh_exit_code proc (Some timeout) = Value 0 ->
        install_sshfs_for P name session timeout w = (Ok tt, w1)).
Proof.
  intros announce proc w1.
  assert (Hw1 : record_events [SessionExec "sudo snap install multipass-sshfs"]
                  (record_events [announce] w) = w1)
    by (unfold w1; now rewrite record_events_app).
  split; [|split].
  - intros c Hexit Hc. unfold install_sshfs_for. run_session.
    fold announce. cbn [record_events trace this]. fold proc.
    rewrite Hexit, (eqb_nonzero _ Hc). cbn [negb]. rewrite <- Hw1. reflexivity.
  - intros m Hexit. unfold install_sshfs_for. run_session.
    fold announce. cbn [record_events trace this]. fold proc.
    rewrite Hexit. rewrite <- Hw1. reflexivity.
  - intros Hexit. unfold install_sshfs_for. run_session.
    fold announce. cbn [record_events trace this]. fold proc.
    rewrite Hexit. cbn [Z.eqb negb]. rewrite <- Hw1. reflexivity.
Qed.

End Remote.

Lemma has_sshfs_classifies_by_exit_code_witness :
  let s := mkSession "10.0.0.1" 22 "ubuntu" in
  let ok := Sample.exits 0 EmptyString in
  let no := Sample.exits 1 "not found" in
  let child := Sample.server [] 100 in
  fst (has_sshfs (Sample.platform no ok ok ok child) "primary" s Sample.fresh) =
    Throw (runtime_error (snap_missing_message "primary"))
  /\ fst (has_sshfs (Sample.platform ok ok no ok child) "primary" s Sample.fresh) = Ok true
  /\ fst (has_sshfs (Sample.platform ok no no ok child) "primary" s Sample.fresh) =
       Throw (runtime_error (classic_missing_message "primary"))
  /\ has_sshfs (Sample.platform ok no ok ok child) "primary" s Sample.fresh =
       (Ok false,
        record_events [SessionExec "which snap"; SessionExec "sudo snap list multipass-sshfs";
                       SessionExec "[ -e /snap ]"] Sample.fresh)
  /\ has_sshfs (Sample.platform ok (Sample.exits 1 "other words") ok ok child)
               "primary" s Sample.fresh =
     has_sshfs (Sample.platform ok no ok ok child) "primary" s Sample.fresh.
Proof.
  intros s ok no child.
  split; [|split; [|split; [|split]]].
  - destruct (has_sshfs_classifies_by_exit_code
                (Sample.platform no ok ok ok child) "primary" s Sample.fresh)
      as (H & _).
    rewrite (H 1); [reflexivity | reflexivity | discriminate].
  - destruct (has_sshfs_classifies_by_exit_code
                (Sample.platform ok ok no ok child) "primary" s Sample.fresh)
      as (_ & H & _).
    rewrite H; reflexivity.
  - destruct (has_sshfs_classifies_by_exit_code
                (Sample.platform ok no no ok child) "primary" s Sample.fresh)
      as (_ & _ & H & _).
    rewrite (H 1 1); [reflexivity | reflexivity | reflexivity | discriminate
                     | reflexivity | discriminate].
  - destruct (has_sshfs_classifies_by_exit_code
                (Sample.platform ok no ok ok child) "primary" s Sample.fresh)
      as (_ & _ & _ & H & _).
    rewrite (H 1); [reflexivity | reflexivity | reflexivity | discriminate | reflexivity].
  - destruct (has_sshfs_classifies_by_exit_code
                (Sample.platform ok no ok ok child) "primary" s Sample.fresh)
      as (_ & _ & _ & _ & H).
    apply H. intros tr cmd. simpl. unfold Sample.remote.
    destruct (String.eqb cmd "which snap"); [reflexivity|].
    destruct (String.eqb cmd "sudo snap list multipass-sshfs"); reflexivity.
Defined.

Lemma install_sshfs_for_outcomes_witness :
  let s := mkSession "10.0.0.1" 22 "ubuntu" in
  fst (install_sshfs_for
         (Sample.installable_platform (Sample.exits 1 "error: snap not found"))
         "primary" s 300000 Sample.fresh) = Throw SSHFSMissingError
  /\ fst (install_sshfs_for (Sample.installable_platform Sample.hangs)
                            "primary" s 300000 Sample.fresh) = Throw SSHFSMissingError
  /\ fst (install_sshfs_for (Sample.installable_platform (Sample.exits 0 EmptyString))
                            "primary" s 300000 Sample.fresh) = Ok tt.
Proof.
  intros s. split; [|split].
  - destruct (install_sshfs_for_outcomes
                (Sample.installable_platform (Sample.exits 1 "error: snap not found"))
                "primary" s 300000 Sample.fresh) as (H & _).
    rewrite (H 1); [reflexivity | reflexivity | discriminate].
  - destruct (install_sshfs_for_outcomes
                (Sample.installable_platform Sample.hangs)
                "primary" s 300000 Sample.fresh) as (_ & H & _).
    rewrite (H "no exit status"); reflexivity.
  - destruct (install_sshfs_for_outcomes
                (Sample.installable_platform (Sample.exits 0 EmptyString))
                "primary" s 300000 Sample.fresh) as (_ & _ & H).
    rewrite H; reflexivity.
Defined.

(** ** Stopping *)

Ltac run_process :=
  cbv beta iota delta
    [bind ret throw try_catch log emit emit_all finish get_this modify_this deref_process
     put_process process_terminate wait_for_finished read_all_standard_error].

(** C4: [stop_impl] asks the subprocess to terminate and then waits for it
    with the deadline 5000 ms.  When the subprocess is gone within the
    deadline the call returns; when it is still alive then, the call throws
    the [runtime_error] for a failed termination, whose text ends with the
    standard error of the subprocess. *)
Theorem stop_impl_waits_5000 (w : World) (p : Process) :
  process (this w) = Some p ->
  let announce :=
    Log lvl_info category ("Stopping mount " ++ dq ++ target (this w) ++ dq ++
                           " in instance '" ++ vm_name (vm (this w)) ++ "'") in
  let w1 := record_events [announce; ProcessTerminate; WaitForFinished 5000] w in
  (forall st, on_terminate (child p) 5000 = Some st ->
     stop_impl w =
       (Ok tt,
        if running p then
          mkWorld (set_process (Some (fst (deliver_finished p st))) (this w))
                  (trace w1 ++ snd (deliver_finished p st))%list
        else w1))
  /\ (on_terminate (child p) 5000 = None ->
        stop_impl w =
          (Throw (runtime_error ("Failed to terminate SSHFS mount process: " ++ unread_stderr p)),
           mkWorld (set_process (Some (drain_stderr p)) (this w)) (trace w1))).
Proof.
  intros Hp announce w1.
  split.
  - intros st Hgone. unfold stop_impl. run_process.
    repeat (progress cbn [record_events this trace] || rewrite Hp || rewrite Hgone).
    destruct (running p); cbn [deliver_finished fst snd negb record_events this trace];
      unfold w1, record_events; cbn [this trace]; rewrite <- ?app_assoc; reflexivity.
  - intros Halive. unfold stop_impl. run_process.
    repeat (progress cbn [record_events this trace set_process process negb]
            || rewrite Hp || rewrite Halive).
    unfold w1, record_events; cbn [this trace]; rewrite <- ?app_assoc; reflexivity.
Qed.

(** C9: once the public [stop] has completed, a second [stop] is a no-op: it
    returns without error and leaves the handler and the trace as they
    are, so no further termination request reaches the subprocess. *)
Theorem stop_twice_is_noop (w w1 : World) :
  stop w = (Ok tt, w1) ->
  stop w1 = (Ok tt, w1)
  /\ occurrences is_terminate (trace (snd (stop w1))) = occurrences is_terminate (trace w1).
Proof.
  intros Hstop.
  assert (Hstopped : lifecycle (this w1) = Stopped).
  { revert Hstop. unfold stop, bind, get_this, modify_this, ret.
    destruct (lifecycle (this w)) eqn:Hl;
      try (destruct (stop_impl _) as [[[]|e|y] w']; intros H; inversion H; reflexivity).
    intros H; inversion H; subst; exact Hl. }
  assert (Hnoop : stop w1 = (Ok tt, w1)).
  { unfold stop, bind, get_this, ret. rewrite Hstopped. reflexivity. }
  split; [exact Hnoop | now rewrite Hnoop].
Qed.

(** [stop_impl] by itself asks the subprocess to terminate every time it
    runs; the check that makes the second [stop] a no-op is in [stop]. *)
Lemma stop_impl_terminates_each_time (w : World) (p : Process) :
  process (this w) = Some p ->
  occurrences is_terminate (trace (snd (stop_impl w))) =
    S (occurrences is_terminate (trace w)).
Proof.
  intros Hp.
  assert (Hlogs : forall (st : ProcessState) slots,
            occurrences is_terminate (map (fun slot => log_event (slot st)) slots) = 0%nat).
  { intros st slots. induction slots as [|slot slots IH]; [reflexivity | exact IH]. }
  unfold stop_impl. run_process.
  repeat (progress cbn [record_events this trace set_process process] || rewrite Hp).
  destruct (on_terminate (child p) 5000) as [st|].
  - destruct (running p);
      cbn [deliver_finished negb snd record_events this trace set_process process];
      rewrite ?occurrences_app, ?Hlogs; cbn; lia.
  - cbn [negb snd record_events this trace set_process process].
    repeat (progress cbn [snd record_events this trace set_process process] || rewrite Hp).
    rewrite !occurrences_app. cbn. lia.
Qed.

Section Destructor.

Variable P : Platform.

(** C7: the destructor runs [stop] once and lets no exception out.  What
    [stop] leaves behind is what the destructor leaves behind; when [stop]
    throws, the exception ends in one warning record that holds its
    message, and the destructor returns. *)
Theorem destructor_swallows_stop_failure (stop_fn : M unit) (w : World) :
  (forall e w', SSHFSMountHandler_dtor P stop_fn w <> (Throw e, w'))
  /\ SSHFSMountHandler_dtor P stop_fn w =
       match stop_fn w with
       | (Ok u, w') => (Ok u, w')
       | (Throw e, w') =>
           (Ok tt,
            record_events
              [Log lvl_warning category
                   ("Failed to gracefully stop mount " ++ dq ++ target (this w') ++ dq ++
                    " in instance '" ++ vm_name (vm (this w')) ++ "': " ++ what P e)] w')
       | (Stuck y, w') => (Stuck y, w')
       end.
Proof.
  unfold SSHFSMountHandler_dtor, try_catch, bind, get_this, log, emit.
  destruct (stop_fn w) as [[u|e|y] w']; split; try reflexivity; intros e' w''; discriminate.
Qed.

End Destructor.

Lemma stop_impl_waits_5000_witness :
  fst (stop_impl (Sample.mounted 100)) = Ok tt
  /\ fst (stop_impl (Sample.mounted 60000)) =
       Throw (runtime_error "Failed to terminate SSHFS mount process: fuse: warning").
Proof.
  split.
  - destruct (stop_impl_waits_5000 (Sample.mounted 100)
                (Sample.the_process (Sample.mounted 100)) eq_refl) as (H & _).
    rewrite (H (mkProcessState (Some 0) None)); reflexivity.
  - destruct (stop_impl_waits_5000 (Sample.mounted 60000)
                (Sample.the_process (Sample.mounted 60000)) eq_refl) as (_ & H).
    rewrite H; reflexivity.
Defined.

Lemma stop_twice_is_noop_witness :
  let w1 := snd (stop (Sample.mounted 100)) in
  stop w1 = (Ok tt, w1)
  /\ occurrences is_terminate (trace (snd (stop w1))) = occurrences is_terminate (trace w1).
Proof.
  intros w1.
  apply (stop_twice_is_noop (Sample.mounted 100) w1).
  reflexivity.
Defined.

(** ** Starting *)

Lemma bind_assoc_at {A B C : Type} (m : M A) (f : A -> M B) (g : B -> M C) (w : World) :
  bind (bind m f) g w = bind m (fun a => bind (f a) g) w.
Proof.
  unfold bind. destruct (m w) as [[a|e|y] w']; reflexivity.
Qed.

Lemma bind_ok_at {A B : Type} (m : M A) (f : A -> M B) (w w1 : World) (a : A) :
  m w = (Ok a, w1) -> bind m f w = f a w1.
Proof.
  intros H. unfold bind. now rewrite H.
Qed.

Lemma bind_throw_at {A B : Type} (m : M A) (f : A -> M B) (w w1 : World) (e : exception) :
  m w = (Throw e, w1) -> bind m f w = (Throw e, w1).
Proof.
  intros H. unfold bind. now rewrite H.
Qed.

Section Start.

Variable P : Platform.
Variables (server : ServerVariant) (timeout : Z).

Lemma start_impl_after_wait (w w1 : World) :
  (start_impl_prepare P server timeout ;; start_impl_launch P) w = (Ok tt, w1) ->
  start_impl P server timeout w = start_impl_check P w1.
Proof.
  intros H. unfold start_impl.
  rewrite <- bind_assoc_at. now rewrite (bind_ok_at _ _ _ _ _ H).
Qed.

(** C1: when the wait of [start_impl] is over, the state of the subprocess
    decides.  Exit code 9 is [SSHFSMissingError], whatever the subprocess
    wrote to standard error.  Any other non-zero exit code, and an error of
    the process when the exit code is not 9, is the [runtime_error] whose
    text is the failure message, a colon, and the standard error of the
    subprocess as it was written. *)
Theorem start_impl_inspects_exit_state (w w1 : World) (p : Process) :
  (start_impl_prepare P server timeout ;; start_impl_launch P) w = (Ok tt, w1) ->
  process (this w1) = Some p ->
  let state := process_state p in
  let failure := runtime_error (failure_message P state ++ ": " ++ unread_stderr p) in
  let w2 := mkWorld (set_process (Some (drain_stderr p)) (this w1)) (trace w1) in
  (exit_code state = Some 9 ->
     start_impl P server timeout w = (Throw SSHFSMissingError, w1))
  /\ (forall c, exit_code state = Some c -> c <> 0 -> c <> 9 ->
        start_impl P server timeout w = (Throw failure, w2))
  /\ (exit_code state <> Some 9 -> error state <> None ->
        start_impl P server timeout w = (Throw failure, w2)).
Proof.
  intros Hwait Hp state failure w2.
  rewrite (start_impl_after_wait _ _ Hwait).
  unfold start_impl_check.
  cbv beta iota delta [bind ret throw deref_process read_all_standard_error put_process
                       modify_this].
  rewrite Hp. fold state.
  split; [|split].
  - intros H9. unfold exit_code_is. rewrite H9. reflexivity.
  - intros c Hc H0 H9. unfold exit_code_is. rewrite Hc.
    apply Z.eqb_neq in H9. rewrite H9. cbn [has_value orb]. rewrite Hp. reflexivity.
  - intros H9 Herr. unfold exit_code_is.
    destruct (exit_code state) as [c|] eqn:Hc.
    + assert (Hc9 : (c =? 9) = false) by (apply Z.eqb_neq; congruence).
      rewrite Hc9. cbn [has_value orb]. rewrite Hp. reflexivity.
    + destruct (error state) as [err|]; [|congruence].
      cbn [has_value orb]. rewrite Hp. reflexivity.
Qed.

End Start.

Lemma start_impl_inspects_exit_state_witness :
  let missing := [standard_error "anything at all"; finished (mkProcessState (Some 9) None)] in
  let broken := [standard_error "fuse: device not found"; finished (mkProcessState (Some 1) None)] in
  let crashed := [standard_error "Segmentation fault";
                  finished (mkProcessState None (Some (mkProcessError 1 "Process crashed")))] in
  fst (start_impl (Sample.failing missing) Sample.sink 300000 Sample.fresh) =
    Throw SSHFSMissingError
  /\ fst (start_impl (Sample.failing broken) Sample.sink 300000 Sample.fresh) =
       Throw (runtime_error "Process returned exit code: fuse: device not found")
  /\ fst (start_impl (Sample.failing crashed) Sample.sink 300000 Sample.fresh) =
       Throw (runtime_error "Process crashed: Segmentation fault").
Proof.
  intros missing broken crashed.
  split; [|split].
  - destruct (start_impl_inspects_exit_state (Sample.failing missing) Sample.sink 300000
                Sample.fresh (Sample.waited missing) (Sample.the_process (Sample.waited missing))
                eq_refl eq_refl) as (H & _).
    rewrite H; reflexivity.
  - destruct (start_impl_inspects_exit_state (Sample.failing broken) Sample.sink 300000
                Sample.fresh (Sample.waited broken) (Sample.the_process (Sample.waited broken))
                eq_refl eq_refl) as (_ & H & _).
    rewrite (H 1); [reflexivity | reflexivity | discriminate | discriminate].
  - destruct (start_impl_inspects_exit_state (Sample.failing crashed) Sample.sink 300000
                Sample.fresh (Sample.waited crashed) (Sample.the_process (Sample.waited crashed))
                eq_refl eq_refl) as (_ & _ & H).
    rewrite H; [reflexivity | discriminate | discriminate].
Defined.

(** ** What the parts of the code emit *)

Section Emits.

Context {A B : Type}.
Variable kind : Event -> bool.

Lemma emits_only_weaken (k1 : Event -> bool) (m : M A) :
  (forall ev, k1 ev = true -> kind ev = true) -> emits_only k1 m -> emits_only kind m.
Proof.
  intros Hk Hm w. destruct (Hm w) as (evs & Htr & Hall).
  exists evs. split; [exact Htr | now apply (forallb_weaken k1)].
Qed.

Lemma emits_only_silent (m : M A) :
  (forall w, trace (snd (m w)) = trace w) -> emits_only kind m.
Proof.
  intros H w. exists []. rewrite H, app_nil_r. now split.
Qed.

Lemma emits_only_ret (a : A) : emits_only kind (ret a).
Proof. now apply emits_only_silent. Qed.

Lemma emits_only_throw (e : exception) : emits_only kind (@throw A e).
Proof. now apply emits_only_silent. Qed.

Lemma emits_only_bind (m : M A) (f : A -> M B) :
  emits_only kind m -> (forall a, emits_only kind (f a)) -> emits_only kind (bind m f).
Proof.
  intros Hm Hf w. unfold bind.
  destruct (Hm w) as (evs & Htr & Hall).
  destruct (m w) as [[a|e|y] w']; simpl in Htr; try (exists evs; now split).
  destruct (Hf a w') as (evs' & Htr' & Hall').
  exists (evs ++ evs')%list. rewrite Htr', Htr, app_assoc, forallb_app, Hall, Hall'. now split.
Qed.

Lemma emits_only_try_catch (body : M A) (handler : exception -> option (M A)) :
  emits_only kind body ->
  (forall e h, handler e = Some h -> emits_only kind h) ->
  emits_only kind (try_catch body handler).
Proof.
  intros Hm Hh w. unfold try_catch.
  destruct (Hm w) as (evs & Htr & Hall).
  destruct (body w) as [[a|e|y] w']; simpl in Htr; try (exists evs; now split).
  destruct (handler e) as [h|] eqn:He; [|exists evs; now split].
  destruct (Hh e h He w') as (evs' & Htr' & Hall').
  exists (evs ++ evs')%list. rewrite Htr', Htr, app_assoc, forallb_app, Hall, Hall'. now split.
Qed.

(** The trace of [m ;; f] is the trace of [m] and what [f] adds to it. *)
Lemma bind_extends (m : M A) (f : A -> M B) (w : World) :
  (forall a, emits_only kind (f a)) ->
  exists evs,
    trace (snd (bind m f w)) = (trace (snd (m w)) ++ evs)%list /\ forallb kind evs = true.
Proof.
  intros Hf. unfold bind.
  destruct (m w) as [[a|e|y] w']; simpl;
    try (exists []; rewrite app_nil_r; now split).
  apply Hf.
Qed.

End Emits.

Lemma emits_only_emit (kind : Event -> bool) (ev : Event) :
  kind ev = true -> emits_only kind (emit ev).
Proof.
  intros H w. exists [ev]. simpl. now rewrite H.
Qed.

Lemma emits_only_log (kind : Event -> bool) (lvl : Level) (msg : string) :
  kind (Log lvl category msg) = true -> emits_only kind (log lvl msg).
Proof. apply emits_only_emit. Qed.

Lemma emits_only_get_this (kind : Event -> bool) : emits_only kind get_this.
Proof. now apply emits_only_silent. Qed.

Lemma emits_only_modify_this (kind : Event -> bool) f : emits_only kind (modify_this f).
Proof. now apply emits_only_silent. Qed.

Lemma emits_only_deref_process (kind : Event -> bool) : emits_only kind deref_process.
Proof.
  apply emits_only_silent. intros w. unfold deref_process.
  now destruct (process (this w)).
Qed.

Lemma emits_only_put_process (kind : Event -> bool) p : emits_only kind (put_process p).
Proof. now apply emits_only_silent. Qed.

Section Keeps.

Context {A B : Type}.

Lemma keeps_this_ret (a : A) : keeps_this (ret a).
Proof. now intros w. Qed.

Lemma keeps_this_throw (e : exception) : keeps_this (@throw A e).
Proof. now intros w. Qed.

Lemma keeps_this_bind (m : M A) (f : A -> M B) :
  keeps_this m -> (forall a, keeps_this (f a)) -> keeps_this (bind m f).
Proof.
  intros Hm Hf w. unfold bind. specialize (Hm w).
  destruct (m w) as [[a|e|y] w']; simpl in Hm; try exact Hm.
  now rewrite Hf.
Qed.

Lemma keeps_this_try_catch (body : M A) (handler : exception -> option (M A)) :
  keeps_this body ->
  (forall e h, handler e = Some h -> keeps_this h) ->
  keeps_this (try_catch body handler).
Proof.
  intros Hm Hh w. unfold try_catch. specialize (Hm w).
  destruct (body w) as [[a|e|y] w']; simpl in Hm; try exact Hm.
  destruct (handler e) as [h|] eqn:He; [|exact Hm].
  now rewrite (Hh e h He).
Qed.

End Keeps.

Lemma keeps_this_emit (ev : Event) : keeps_this (emit ev).
Proof. now intros w. Qed.

Lemma keeps_this_log (lvl : Level) (msg : string) : keeps_this (log lvl msg).
Proof. now intros w. Qed.

Lemma keeps_this_get_this : keeps_this get_this.
Proof. now intros w. Qed.

Section EmitsCode.

Variable P : Platform.
Variable kind : Event -> bool.

Lemma emits_only_exec (session : SSHSession) (cmd : string) :
  kind (SessionExec cmd) = true -> emits_only kind (exec P session cmd).
Proof.
  intros H w. exists [SessionExec cmd]. simpl. now rewrite H.
Qed.

Lemma emits_only_exit_code (proc : SSHProcess) (t : option Z) :
  emits_only kind (ssh_process_exit_code proc t).
Proof.
  apply emits_only_silent. intros w. unfold ssh_process_exit_code.
  now destruct (ssh_exit_code proc t).
Qed.

Lemma keeps_this_exec (session : SSHSession) (cmd : string) :
  keeps_this (exec P session cmd).
Proof. now intros w. Qed.

Lemma keeps_this_exit_code (proc : SSHProcess) (t : option Z) :
  keeps_this (ssh_process_exit_code proc t).
Proof.
  intros w. unfold ssh_process_exit_code. now destruct (ssh_exit_code proc t).
Qed.

End EmitsCode.

(** Goes through a computation of the code, one call after the other. *)
Ltac emits :=
  repeat match goal with
    | |- emits_only _ (bind _ _) => apply emits_only_bind; [|intros ?]
    | |- emits_only _ (ret _) => apply emits_only_ret
    | |- emits_only _ (throw _) => apply emits_only_throw
    | |- emits_only _ get_this => apply emits_only_get_this
    | |- emits_only _ (modify_this _) => apply emits_only_modify_this
    | |- emits_only _ deref_process => apply emits_only_deref_process
    | |- emits_only _ (put_process _) => apply emits_only_put_process
    | |- emits_only _ (ssh_process_exit_code _ _) => apply emits_only_exit_code
    | |- emits_only _ (log _ _) => apply emits_only_log; reflexivity
    | |- emits_only _ (emit _) => apply emits_only_emit; reflexivity
    | |- emits_only _ (exec _ _ _) => apply emits_only_exec; reflexivity
    | |- emits_only _ (if ?c then _ else _) => destruct c
    end.

Ltac keeps :=
  repeat match goal with
    | |- keeps_this (bind _ _) => apply keeps_this_bind; [|intros ?]
    | |- keeps_this (ret _) => apply keeps_this_ret
    | |- keeps_this (throw _) => apply keeps_this_throw
    | |- keeps_this get_this => apply keeps_this_get_this
    | |- keeps_this (ssh_process_exit_code _ _) => apply keeps_this_exit_code
    | |- keeps_this (log _ _) => apply keeps_this_log
    | |- keeps_this (emit _) => apply keeps_this_emit
    | |- keeps_this (exec _ _ _) => apply keeps_this_exec
    | |- keeps_this (if ?c then _ else _) => destruct c
    end.

Section EmitsStart.

Variable P : Platform.

Lemma has_sshfs_emits (name : string) (session : SSHSession) :
  emits_only is_probe_traffic (has_sshfs P name session).
Proof. unfold has_sshfs. emits. Qed.

Lemma has_sshfs_keeps_this (name : string) (session : SSHSession) :
  keeps_this (has_sshfs P name session).
Proof. unfold has_sshfs. keeps. Qed.

Lemma visitor_keeps_this (server : ServerVariant) : keeps_this (visitor server).
Proof. unfold visitor. keeps. Qed.

Lemma install_sshfs_for_keeps_this (name : string) (session : SSHSession) (timeout : Z) :
  keeps_this (install_sshfs_for P name session timeout).
Proof.
  unfold install_sshfs_for. apply keeps_this_try_catch.
  - keeps.
  - intros e h He. destruct e; inversion He; subst. keeps.
Qed.

(** The installer first announces itself and runs the install command;
    whatever follows is logging. *)
Lemma install_sshfs_for_emits (name : string) (session : SSHSession) (timeout : Z) (w : World) :
  exists after,
    trace (snd (install_sshfs_for P name session timeout w)) =
      (trace w ++
       [Log lvl_info category ("Installing the multipass-sshfs snap in '" ++ name ++ "'");
        SessionExec "sudo snap install multipass-sshfs"] ++ after)%list
    /\ forallb is_log after = true.
Proof.
  unfold install_sshfs_for.
  cbv beta iota delta [bind ret throw try_catch log emit exec ssh_process_exit_code].
  cbn [record_events this trace].
  match goal with
  | |- context [ssh_exit_code ?proc ?t] => destruct (ssh_exit_code proc t) as [c|e]
  end.
  - destruct (negb (c =? 0)); cbn [record_events this trace snd]; rewrite <- !app_assoc;
      eexists; (split; [reflexivity | reflexivity]).
  - destruct e; cbn [record_events this trace snd]; rewrite <- !app_assoc;
      eexists; (split; [simpl; try rewrite app_nil_r; reflexivity | reflexivity]).
Qed.

Lemma start_impl_session_emits : emits_only is_session_setup (start_impl_session P).
Proof.
  unfold start_impl_session. emits.
  - intros w. unfold vm_ssh_hostname.
    exists [SshHostname (ssh_hostname (vm a) (trace w))].
    destruct (ssh_hostname (vm a) (trace w)); now split.
  - intros w. unfold SSHSession_ctor.
    exists [SessionOpen a0 (ssh_port (vm a)) (ssh_username (vm a))].
    destruct (session_connect P (trace w) a0 (ssh_port (vm a)) (ssh_username (vm a)));
      now split.
Qed.

Lemma start_impl_session_keeps_this : keeps_this (start_impl_session P).
Proof.
  unfold start_impl_session. keeps.
  - intros w. unfold vm_ssh_hostname. now destruct (ssh_hostname (vm a) (trace w)).
  - intros w. unfold SSHSession_ctor.
    now destruct (session_connect P (trace w) a0 (ssh_port (vm a)) (ssh_username (vm a))).
Qed.

Lemma start_impl_prepare_keeps_this (server : ServerVariant) (timeout : Z) :
  keeps_this (start_impl_prepare P server timeout).
Proof.
  unfold start_impl_prepare. keeps.
  - apply start_impl_session_keeps_this.
  - apply has_sshfs_keeps_this.
  - apply visitor_keeps_this.
  - apply install_sshfs_for_keeps_this.
Qed.

End EmitsStart.

Lemma event_loop_exec_logs (evs : list ProcessEvent) :
  forall (p : Process) (logs : list Event),
    forallb is_log logs = true ->
    forallb is_log (snd (event_loop_exec evs p logs)) = true.
Proof.
  induction evs as [|ev rest IH]; intros p logs Hlogs; [exact Hlogs|].
  destruct ev as [chunk|chunk|err msg|st]; cbn [event_loop_exec].
  - destruct (contains "Connected" (unread_stdout p ++ chunk)); [exact Hlogs | now apply IH].
  - now apply IH.
  - apply IH. rewrite forallb_app, Hlogs. simpl.
    induction (error_slots p) as [|slot slots IHs]; simpl; auto.
  - cbn [deliver_finished snd]. rewrite forallb_app, Hlogs. simpl.
    induction (finished_slots p) as [|slot slots IHs]; simpl; auto.
Qed.

Section Launch.

Variable P : Platform.

(** What the second part of [start_impl] does once the machine has given
    its address: it stores the address in [config], makes the subprocess
    from that [config], and from then on only logs and starts it. *)
Lemma start_impl_launch_run (w : World) (address : string) :
  ssh_hostname (vm (this w)) (trace w) = Value address ->
  exists after,
    trace (snd (start_impl_launch P w)) =
      (trace w ++ [SshHostname (Value address);
                   MakeProcess (set_host address (config (this w)))] ++ after)%list
    /\ forallb is_process_traffic after = true
    /\ config (this (snd (start_impl_launch P w))) = set_host address (config (this w)).
Proof.
  intros Haddress.
  unfold start_impl_launch, start_and_block_until_connected.
  cbv beta iota delta [bind ret throw log emit emit_all finish get_this modify_this
                       deref_process put_process platform_make_sshfs_server_process
                       connect_finished connect_error_occurred process_start vm_ssh_hostname].
  rewrite Haddress.
  cbn [record_events this trace set_process set_config process config new_process
       pending child finished_slots error_slots running unread_stdout unread_stderr
       process_state app].
  match goal with
  | |- context [event_loop_exec ?evs ?p ?logs] =>
      pose proof (event_loop_exec_logs evs p logs eq_refl) as Hlogs;
      destruct (event_loop_exec evs p logs) as [[r p'] logs']
  end.
  cbn [snd] in Hlogs.
  cbn [record_events this trace set_process config snd].
  eexists. split; [|split].
  - rewrite <- !app_assoc. cbn [app]. reflexivity.
  - cbn [forallb is_process_traffic andb].
    apply (forallb_weaken is_log); [|exact Hlogs].
    intros ev; destruct ev; simpl; congruence.
  - reflexivity.
Qed.

Lemma start_impl_launch_unreachable (w : World) (e : exception) :
  ssh_hostname (vm (this w)) (trace w) = Raises e ->
  start_impl_launch P w = (Throw e, record_events [SshHostname (Raises e)] w).
Proof.
  intros Haddress.
  unfold start_impl_launch.
  cbv beta iota delta [bind get_this vm_ssh_hostname].
  now rewrite Haddress.
Qed.

Lemma start_impl_check_silent (w : World) :
  trace (snd (start_impl_check P w)) = trace w.
Proof.
  unfold start_impl_check.
  cbv beta iota delta [bind ret throw deref_process read_all_standard_error put_process
                       modify_this].
  destruct (process (this w)) as [p|] eqn:Hp; [|reflexivity].
  destruct (exit_code_is (process_state p) 9); [reflexivity|].
  destruct (has_value (exit_code (process_state p)) || has_value (error (process_state p)));
    [|reflexivity].
  rewrite Hp. reflexivity.
Qed.

End Launch.

Section Prepare.

Variable P : Platform.
Variables (server : ServerVariant) (timeout : Z).

Lemma install_sshfs_for_emits_only (name : string) (session : SSHSession) :
  emits_only is_prepare_traffic (install_sshfs_for P name session timeout).
Proof.
  intros w. destruct (install_sshfs_for_emits P name session timeout w) as (after & Htr & Hlog).
  eexists. split; [exact Htr|].
  cbn [app forallb is_prepare_traffic andb].
  apply (forallb_weaken is_log); [|exact Hlog].
  intros ev; destruct ev; simpl; congruence.
Qed.

Lemma visitor_emits_only : emits_only is_prepare_traffic (visitor server).
Proof. unfold visitor. emits. Qed.

(** The first part of [start_impl] asks the machine for its address once,
    as the first thing it does. *)
Lemma start_impl_prepare_emits (w : World) :
  exists before,
    trace (snd (start_impl_prepare P server timeout w)) =
      (trace w ++ [SshHostname (ssh_hostname (vm (this w)) (trace w))] ++ before)%list
    /\ forallb is_prepare_traffic before = true.
Proof.
  unfold start_impl_prepare, start_impl_session.
  cbv beta iota delta [bind get_this vm_ssh_hostname].
  destruct (ssh_hostname (vm (this w)) (trace w)) as [address|e]; [|exists []; now split].
  unfold SSHSession_ctor.
  destruct (session_connect P _ _ _ _) as [e|].
  - eexists [_]. cbn [snd record_events trace this]. rewrite <- app_assoc. now split.
  - set (name := vm_name (vm (this w))).
    set (session := mkSession _ _ _).
    assert (Hrest : emits_only is_prepare_traffic
              (bind (has_sshfs P name session)
                 (fun ready =>
                    if negb ready then
                      bind (visitor server)
                           (fun _ => install_sshfs_for P name session timeout)
                    else ret tt))).
    { apply emits_only_bind.
      - apply (emits_only_weaken is_prepare_traffic is_probe_traffic);
          [intros ev; destruct ev; simpl; congruence | apply has_sshfs_emits].
      - intros ready. destruct (negb ready); [|apply emits_only_ret].
        apply emits_only_bind; [apply visitor_emits_only|].
        intros _. apply install_sshfs_for_emits_only. }
    match goal with
    | |- context [has_sshfs P name session ?w0] => destruct (Hrest w0) as (evs & Htr & Hall)
    end.
    exists (SessionOpen address (ssh_port (vm (this w))) (ssh_username (vm (this w))) :: evs).
    split; [etransitivity; [exact Htr|] | exact Hall].
    cbn [record_events trace this]. rewrite <- !app_assoc. reflexivity.
Qed.

End Prepare.

Section StartClaims.

Variable P : Platform.
Variables (server : ServerVariant) (timeout : Z).

Lemma start_impl_launch_emits : emits_only is_launch_traffic (start_impl_launch P).
Proof.
  intros w. destruct (ssh_hostname (vm (this w)) (trace w)) as [address|e] eqn:Haddress.
  - destruct (start_impl_launch_run P w address Haddress) as (after & Htr & Hafter & _).
    eexists. split; [exact Htr|].
    cbn [app forallb is_launch_traffic andb].
    apply (forallb_weaken is_process_traffic); [|exact Hafter].
    intros ev; destruct ev; simpl; congruence.
  - rewrite (start_impl_launch_unreachable P w e Haddress).
    eexists. split; reflexivity.
Qed.

Lemma start_impl_prepare_failed (w w' : World) (e : exception) :
  start_impl_prepare P server timeout w = (Throw e, w') ->
  start_impl P server timeout w = (Throw e, w')
  /\ process (this w') = process (this w)
  /\ occurrences is_launch (trace w') = occurrences is_launch (trace w).
Proof.
  intros Hfail. split; [|split].
  - unfold start_impl. now apply bind_throw_at.
  - pose proof (start_impl_prepare_keeps_this P server timeout w) as Hthis.
    rewrite Hfail in Hthis. simpl in Hthis. now rewrite Hthis.
  - destruct (start_impl_prepare_emits P server timeout w) as (before & Htr & Hall).
    rewrite Hfail in Htr. cbn [snd] in Htr.
    rewrite Htr, !occurrences_app.
    rewrite (occurrences_none is_launch is_prepare_traffic before);
      [simpl; lia | intros ev; destruct ev; simpl; congruence | exact Hall].
Qed.

(** C10: the subprocess handle is null after construction, and a start
    that fails in the session, in a probe or in the installer throws that
    error, leaves the handle null and has made no subprocess. *)
Theorem start_impl_fails_before_launch
        (v : VirtualMachine) (keys : SSHKeyProvider) (tgt : string) (mount : VMMount)
        (tr : Trace) (w ws wp w' : World) (session : SSHSession) (e : exception) :
  let failed_clean :=
    start_impl P server timeout w = (Throw e, w')
    /\ process (this w') = None
    /\ occurrences is_launch (trace w') = occurrences is_launch (trace w) in
  process (this (SSHFSMountHandler_ctor v keys tgt mount tr)) = None
  /\ (process (this w) = None ->
      (start_impl_session P w = (Throw e, w') -> failed_clean)
      /\ (start_impl_session P w = (Ok session, ws) ->
          has_sshfs P (vm_name (vm (this w))) session ws = (Throw e, w') -> failed_clean)
      /\ (start_impl_session P w = (Ok session, ws) ->
          has_sshfs P (vm_name (vm (this w))) session ws = (Ok false, wp) ->
          (visitor server ;;
           install_sshfs_for P (vm_name (vm (this w))) session timeout) wp = (Throw e, w') ->
          failed_clean)).
Proof.
  intros failed_clean. split; [reflexivity|].
  intros Hnull.
  assert (Hclean : start_impl_prepare P server timeout w = (Throw e, w') -> failed_clean).
  { intros Hfail. destruct (start_impl_prepare_failed _ _ _ Hfail) as (H1 & H2 & H3).
    unfold failed_clean. rewrite H2. auto. }
  split; [|split].
  - intros Hsession. apply Hclean.
    unfold start_impl_prepare. cbv beta iota delta [bind get_this]. now rewrite Hsession.
  - intros Hsession Hprobe. apply Hclean.
    unfold start_impl_prepare. cbv beta iota delta [bind get_this].
    now rewrite Hsession, Hprobe.
  - intros Hsession Hprobe Hinstall. apply Hclean.
    unfold start_impl_prepare. cbv beta iota delta [bind get_this].
    rewrite Hsession, Hprobe. exact Hinstall.
Qed.

Lemma start_impl_check_keeps_config (w : World) :
  config (this (snd (start_impl_check P w))) = config (this w).
Proof.
  unfold start_impl_check.
  cbv beta iota delta [bind ret throw deref_process read_all_standard_error put_process
                       modify_this].
  destruct (process (this w)) as [p|] eqn:Hp; [|reflexivity].
  destruct (exit_code_is (process_state p) 9); [reflexivity|].
  destruct (has_value (exit_code (process_state p)) || has_value (error (process_state p)));
    [|reflexivity].
  rewrite Hp. reflexivity.
Qed.

(** C8, as the code has it: the host of [config] is empty after
    construction.  A start whose first part succeeds has asked the machine
    for its address once, for the session; it asks a second time after the
    probes and the installer, and that second answer is the host of the
    [config] the subprocess is made from, all other fields being those set
    at construction.  The machine is asked twice in all. *)
Theorem start_impl_resolves_host_twice
        (v : VirtualMachine) (keys : SSHKeyProvider) (tgt : string) (mount : VMMount)
        (tr : Trace) (w w1 : World) (address : string) :
  host (config (this (SSHFSMountHandler_ctor v keys tgt mount tr))) = EmptyString
  /\ (start_impl_prepare P server timeout w = (Ok tt, w1) ->
      ssh_hostname (vm (this w)) (trace w1) = Value address ->
      let final := snd (start_impl P server timeout w) in
      exists first before after,
        trace w1 = (trace w ++ [SshHostname (Value first)] ++ before)%list
        /\ trace final =
             (trace w1 ++ [SshHostname (Value address);
                           MakeProcess (set_host address (config (this w)))] ++ after)%list
        /\ occurrences is_hostname_query before = 0%nat
        /\ occurrences is_hostname_query after = 0%nat
        /\ occurrences is_hostname_query (trace final) =
             (occurrences is_hostname_query (trace w) + 2)%nat
        /\ config (this final) = set_host address (config (this w))).
Proof.
  split; [reflexivity|].
  intros Hprepare Haddress final.
  pose proof (start_impl_prepare_keeps_this P server timeout w) as Hthis.
  destruct (start_impl_prepare_emits P server timeout w) as (before & Htr & Hbefore).
  rewrite Hprepare in Hthis, Htr. cbn [snd] in Hthis, Htr.
  assert (Hfirst : exists first, ssh_hostname (vm (this w)) (trace w) = Value first).
  { revert Hprepare. unfold start_impl_prepare, start_impl_session.
    cbv beta iota delta [bind get_this vm_ssh_hostname].
    destruct (ssh_hostname (vm (this w)) (trace w)) as [first|e]; [eauto | discriminate]. }
  destruct Hfirst as (first & Hfirst). rewrite Hfirst in Htr.
  rewrite <- Hthis in Haddress.
  destruct (start_impl_launch_run P w1 address Haddress) as (after & Hlaunch & Hafter & Hconfig).
  rewrite Hthis in Hlaunch, Hconfig.
  assert (Hfinal : final = snd (bind (start_impl_launch P) (fun _ => start_impl_check P) w1)).
  { unfold final, start_impl. now rewrite (bind_ok_at _ _ _ _ _ Hprepare). }
  assert (Hno_before : occurrences is_hostname_query before = 0%nat).
  { apply (occurrences_none _ is_prepare_traffic); [|exact Hbefore].
    intros ev; destruct ev; simpl; congruence. }
  assert (Hno_after : occurrences is_hostname_query after = 0%nat).
  { apply (occurrences_none _ is_process_traffic); [|exact Hafter].
    intros ev; destruct ev; simpl; congruence. }
  assert (Hfinal_trace : trace final = trace (snd (start_impl_launch P w1))
          /\ config (this final) = config (this (snd (start_impl_launch P w1)))).
  { rewrite Hfinal. unfold bind.
    destruct (start_impl_launch P w1) as [[u|e|y] w2]; cbn [snd]; auto.
    split; [apply start_impl_check_silent | apply start_impl_check_keeps_config]. }
  destruct Hfinal_trace as (Hfinal_trace & Hfinal_config).
  exists first, before, after.
  split; [exact Htr|]. split; [now rewrite Hfinal_trace|].
  split; [exact Hno_before|]. split; [exact Hno_after|].
  split; [|now rewrite Hfinal_config].
  rewrite Hfinal_trace, Hlaunch, Htr, !occurrences_app, Hno_before, Hno_after.
  simpl. lia.
Qed.

(** C5: in [start_impl] the installer runs exactly when [has_sshfs]
    answers "not ready".  On "ready" the run holds no install command and no
    progress message.  On "not ready" the probes are followed by the
    progress message, written once to the reply stream when there is one
    and skipped when the pointer is null, then by the installer with its
    one install command; no other install command and no other progress
    message occurs in the run. *)
Theorem start_impl_installs_iff_not_ready
        (w ws wp : World) (session : SSHSession) (ready : bool) :
  start_impl_session P w = (Ok session, ws) ->
  has_sshfs P (vm_name (vm (this w))) session ws = (Ok ready, wp) ->
  let final := trace (snd (start_impl P server timeout w)) in
  let progress :=
    if server_ptr server
    then [ServerWrite (server_index server) "Enabling support for mounting"] else [] in
  occurrences is_install (trace wp) = occurrences is_install (trace w)
  /\ occurrences is_notification (trace wp) = occurrences is_notification (trace w)
  /\ exists after,
       final =
         (trace wp ++
          (if ready then []
           else progress ++
                [Log lvl_info category
                     ("Installing the multipass-sshfs snap in '" ++
                      vm_name (vm (this w)) ++ "'");
                 SessionExec "sudo snap install multipass-sshfs"]) ++ after)%list
       /\ occurrences is_install after = 0%nat
       /\ occurrences is_notification after = 0%nat.
Proof.
  intros Hsession Hprobe final progress.
  (* the session and the probes *)
  destruct (start_impl_session_emits P w) as (evs1 & Htr1 & Hall1).
  rewrite Hsession in Htr1. cbn [snd] in Htr1.
  destruct (has_sshfs_emits P (vm_name (vm (this w))) session ws) as (evs2 & Htr2 & Hall2).
  rewrite Hprobe in Htr2. cbn [snd] in Htr2.
  assert (Hquiet : forall kind,
            (forall ev, is_session_setup ev = true -> kind ev = false) ->
            (forall ev, is_probe_traffic ev = true -> kind ev = false) ->
            occurrences kind (trace wp) = occurrences kind (trace w)).
  { intros kind H1 H2. rewrite Htr2, Htr1, !occurrences_app.
    rewrite (occurrences_none kind _ evs1 H1 Hall1), (occurrences_none kind _ evs2 H2 Hall2).
    lia. }
  split; [|split].
  - apply Hquiet; intros ev; destruct ev; simpl; try congruence.
    destruct (String.eqb cmd "sudo snap install multipass-sshfs"); simpl; congruence.
  - apply Hquiet; intros ev; destruct ev; simpl; congruence.
  - (* what follows the first part *)
    destruct (bind_extends is_launch_traffic (start_impl_prepare P server timeout)
                (fun _ => bind (start_impl_launch P) (fun _ => start_impl_check P)) w)
      as (extra & Hextra & Hall_extra).
    { intros _. apply emits_only_bind; [apply start_impl_launch_emits|].
      intros _. apply emits_only_silent, start_impl_check_silent. }
    fold (start_impl P server timeout) in Hextra. fold final in Hextra.
    assert (Hprepare : start_impl_prepare P server timeout w =
                       (if negb ready then
                          bind (visitor server)
                               (fun _ => install_sshfs_for P (vm_name (vm (this w)))
                                                           session timeout)
                        else ret tt) wp).
    { unfold start_impl_prepare. cbv beta iota delta [bind get_this].
      now rewrite Hsession, Hprobe. }
    assert (Hno_install : occurrences is_install extra = 0%nat).
    { apply (occurrences_none _ is_launch_traffic); [|exact Hall_extra].
      intros ev; destruct ev; simpl; congruence. }
    assert (Hno_progress : occurrences is_notification extra = 0%nat).
    { apply (occurrences_none _ is_launch_traffic); [|exact Hall_extra].
      intros ev; destruct ev; simpl; congruence. }
    rewrite Hprepare in Hextra.
    destruct ready; cbn [negb] in Hextra.
    + exists extra. cbn [ret snd app] in Hextra. cbn [app]. now split.
    + assert (Hvisit : visitor server wp = (Ok tt, record_events progress wp)).
      { unfold visitor, progress. destruct (server_ptr server); [reflexivity|].
        unfold ret. now rewrite record_events_nil. }
      unfold bind at 1 in Hextra. rewrite Hvisit in Hextra.
      destruct (install_sshfs_for_emits P (vm_name (vm (this w))) session timeout
                  (record_events progress wp)) as (logs & Hinstall & Hlogs).
      rewrite Hinstall in Hextra. cbn [record_events trace] in Hextra.
      exists (logs ++ extra)%list.
      split; [rewrite Hextra, <- !app_assoc; reflexivity|].
      rewrite !occurrences_app, Hno_install, Hno_progress.
      rewrite (occurrences_none is_install is_log logs),
              (occurrences_none is_notification is_log logs);
        try exact Hlogs; try (intros ev; destruct ev; simpl; congruence).
      now split.
Qed.

End StartClaims.

(** ** Waiting for the subprocess *)

Lemma event_loop_exec_wakes (ev : ProcessEvent) (rest before : list ProcessEvent) :
  wakes ev = true ->
  forall (p : Process) (logs : list Event),
    unread_stdout p = EmptyString ->
    forallb sleeps before = true ->
    exists p' logs',
      event_loop_exec (before ++ ev :: rest) p logs = (Ok tt, p', logs')
      /\ pending p' = rest
      /\ match ev with
         | finished st => running p' = false /\ process_state p' = st
         | _ => running p' = running p
                /\ exit_code (process_state p') = exit_code (process_state p)
         end.
Proof.
  intros Hev.
  induction before as [|e before IH]; intros p logs Hunread Hsleep.
  - cbn [app]. destruct ev as [chunk|chunk|err msg|st]; try discriminate.
    + cbn [event_loop_exec]. rewrite Hunread. cbn [append].
      cbn [wakes] in Hev. rewrite Hev. eexists _, _. repeat split.
    + cbn [event_loop_exec deliver_finished]. eexists _, _. repeat split.
  - cbn [forallb] in Hsleep. apply andb_prop in Hsleep. destruct Hsleep as [He Hsleep].
    unfold sleeps in He. apply negb_true_iff in He.
    destruct e as [chunk|chunk|err msg|st]; try discriminate; cbn [app event_loop_exec].
    + rewrite Hunread. cbn [append]. cbn [wakes] in He. rewrite He.
      match goal with |- context [event_loop_exec _ ?q ?l] =>
        destruct (IH q l eq_refl Hsleep) as (p' & logs' & Hrun & Hpending & Hstate) end.
      exists p', logs'. split; [exact Hrun|]. split; [exact Hpending|].
      destruct ev; exact Hstate.
    + match goal with |- context [event_loop_exec _ ?q ?l] =>
        destruct (IH q l Hunread Hsleep) as (p' & logs' & Hrun & Hpending & Hstate) end.
      exists p', logs'. split; [exact Hrun|]. split; [exact Hpending|].
      destruct ev; exact Hstate.
    + match goal with |- context [event_loop_exec _ ?q ?l] =>
        destruct (IH q l Hunread Hsleep) as (p' & logs' & Hrun & Hpending & Hstate) end.
      exists p', logs'. split; [exact Hrun|]. split; [exact Hpending|].
      destruct ev; exact Hstate.
Qed.

Lemma event_loop_exec_sleeps (evs : list ProcessEvent) :
  forall (p : Process) (logs : list Event),
    unread_stdout p = EmptyString ->
    forallb sleeps evs = true ->
    fst (fst (event_loop_exec evs p logs)) = Stuck waits_forever.
Proof.
  induction evs as [|e evs IH]; intros p logs Hunread Hsleep; [reflexivity|].
  cbn [forallb] in Hsleep. apply andb_prop in Hsleep. destruct Hsleep as [He Hsleep].
  unfold sleeps in He. apply negb_true_iff in He.
  destruct e as [chunk|chunk|err msg|st]; try discriminate; cbn [event_loop_exec].
  - rewrite Hunread. cbn [append]. cbn [wakes] in He. rewrite He. now apply IH.
  - now apply IH.
  - now apply IH.
Qed.

(** C6, as the code has it: [start_and_block_until_connected] starts the
    subprocess and comes back at the first event that is either a
    notification whose newly read standard output holds the magic string
    as a substring, the subprocess then still running, or the end of the
    subprocess, whose exit state is then the state of the process.  Output
    read at earlier notifications is not looked at again: while no single
    notification holds the magic string and the subprocess has not ended,
    the call does not come back. *)
Theorem start_and_block_until_connected_wakes
        (w : World) (p : Process) (before rest : list ProcessEvent) (ev : ProcessEvent) :
  process (this w) = Some p ->
  unread_stdout p = EmptyString ->
  forallb sleeps before = true ->
  (script (child p) = (before ++ ev :: rest)%list -> wakes ev = true ->
   exists w' p',
     start_and_block_until_connected w = (Ok tt, w')
     /\ process (this w') = Some p'
     /\ pending p' = rest
     /\ match ev with
        | finished st => running p' = false /\ process_state p' = st
        | _ => running p' = true
               /\ exit_code (process_state p') = exit_code (process_state p)
        end)
  /\ (script (child p) = before ->
      fst (start_and_block_until_connected w) = Stuck waits_forever)
  /\ (forall chunk,
        wakes (standard_output chunk) = true <->
        exists pre post, chunk = pre ++ "Connected" ++ post).
Proof.
  intros Hp Hunread Hsleep.
  cut (forall X Y Z : Prop, (X /\ Y) -> Z -> X /\ Y /\ Z); [|tauto].
  intros Hcut. apply Hcut; [|intros chunk; apply contains_iff].
  unfold start_and_block_until_connected, process_start.
  cbv beta iota delta [bind ret emit emit_all finish deref_process put_process modify_this].
  rewrite Hp.
  cbn [record_events this trace set_process process pending].
  split.
  - intros Hscript Hev. rewrite Hscript.
    match goal with |- context [event_loop_exec _ ?q ?l] =>
      destruct (event_loop_exec_wakes ev rest before Hev q l Hunread Hsleep)
        as (p' & logs' & Hrun & Hpending & Hstate) end.
    rewrite Hrun. cbn [record_events this trace set_process process].
    eexists _, p'. split; [reflexivity|]. split; [reflexivity|]. split; [exact Hpending|].
    destruct ev; exact Hstate.
  - intros Hscript. rewrite Hscript.
    match goal with |- context [event_loop_exec _ ?q ?l] =>
      pose proof (event_loop_exec_sleeps before q l Hunread Hsleep) as Hrun;
      destruct (event_loop_exec before q l) as [[r p'] logs'] end.
    cbn [fst] in Hrun. rewrite Hrun. reflexivity.
Qed.

(** ** The theorems at sample runs *)

Lemma start_impl_fails_before_launch_witness :
  let refused := start_impl Sample.refusing_platform Sample.sink 300000 Sample.fresh in
  let snapless := start_impl Sample.snapless_platform Sample.sink 300000 Sample.fresh in
  let uninstallable :=
    start_impl (Sample.installable_platform (Sample.exits 1 "error: cannot install"))
               Sample.sink 300000 Sample.fresh in
  (fst refused = Throw (SSHException "Connection refused")
   /\ process (this (snd refused)) = None)
  /\ (fst snapless = Throw (runtime_error (snap_missing_message "primary"))
      /\ process (this (snd snapless)) = None)
  /\ (fst uninstallable = Throw SSHFSMissingError
      /\ process (this (snd uninstallable)) = None).
Proof.
  intros refused snapless uninstallable.
  split; [|split].
  - pose (P := Sample.refusing_platform).
    destruct (start_impl_fails_before_launch P Sample.sink 300000
                Sample.machine Sample.keys "/mnt/src" Sample.mount []
                Sample.fresh Sample.fresh Sample.fresh
                (snd (start_impl_session P Sample.fresh)) Sample.session
                (SSHException "Connection refused")) as (_ & H).
    destruct (H eq_refl) as (Hsession & _).
    destruct (Hsession eq_refl) as (Hrun & Hnull & _).
    unfold refused. fold P. rewrite Hrun. split; [reflexivity | exact Hnull].
  - pose (P := Sample.snapless_platform).
    destruct (start_impl_fails_before_launch P Sample.sink 300000
                Sample.machine Sample.keys "/mnt/src" Sample.mount []
                Sample.fresh (snd (start_impl_session P Sample.fresh)) Sample.fresh
                (snd (has_sshfs P "primary" Sample.session
                        (snd (start_impl_session P Sample.fresh))))
                Sample.session
                (runtime_error (snap_missing_message "primary"))) as (_ & H).
    destruct (H eq_refl) as (_ & Hprobe & _).
    destruct (Hprobe eq_refl eq_refl) as (Hrun & Hnull & _).
    unfold snapless. fold P. rewrite Hrun. split; [reflexivity | exact Hnull].
  - pose (P := Sample.installable_platform (Sample.exits 1 "error: cannot install")).
    pose (ws := snd (start_impl_session P Sample.fresh)).
    pose (wp := snd (has_sshfs P "primary" Sample.session ws)).
    destruct (start_impl_fails_before_launch P Sample.sink 300000
                Sample.machine Sample.keys "/mnt/src" Sample.mount []
                Sample.fresh ws wp
                (snd (install_sshfs_for P "primary" Sample.session 300000
                        (snd (visitor Sample.sink wp))))
                Sample.session SSHFSMissingError) as (_ & H).
    destruct (H eq_refl) as (_ & _ & Hinstall).
    destruct (Hinstall eq_refl eq_refl eq_refl) as (Hrun & Hnull & _).
    unfold uninstallable. fold P. rewrite Hrun. split; [reflexivity | exact Hnull].
Defined.

(** C8, the claim as the spec states it, at a successful start: the
    machine is asked for its address twice, not once. *)
Lemma start_impl_resolves_host_once_counterexample :
  let run := start_impl (Sample.mounting 100) Sample.sink 300000 Sample.fresh in
  fst run = Ok tt
  /\ occurrences is_hostname_query (trace Sample.fresh) = 0%nat
  /\ occurrences is_hostname_query (trace (snd run)) = 2%nat
  /\ occurrences is_hostname_query (trace (snd run)) <> 1%nat.
Proof.
  cbv zeta. split; [reflexivity|]. split; [reflexivity|]. split; [reflexivity|].
  vm_compute. discriminate.
Qed.

Lemma start_impl_resolves_host_twice_witness :
  let final := snd (start_impl (Sample.mounting 100) Sample.sink 300000 Sample.fresh) in
  config (this final) = set_host "10.0.0.2" (config (this Sample.fresh))
  /\ occurrences is_hostname_query (trace final) = 2%nat.
Proof.
  intros final.
  pose (P := Sample.mounting 100).
  destruct (start_impl_resolves_host_twice P Sample.sink 300000
              Sample.machine Sample.keys "/mnt/src" Sample.mount []
              Sample.fresh (snd (start_impl_prepare P Sample.sink 300000 Sample.fresh))
              "10.0.0.2") as (_ & H).
  destruct (H eq_refl eq_refl) as (first & before & after & _ & _ & _ & _ & Hcount & Hconfig).
  split; [exact Hconfig | exact Hcount].
Defined.

Lemma start_impl_installs_iff_not_ready_witness :
  let installs (P : Platform) (server : ServerVariant) :=
    occurrences is_install (trace (snd (start_impl P server 300000 Sample.fresh))) in
  let progress (P : Platform) (server : ServerVariant) :=
    occurrences is_notification (trace (snd (start_impl P server 300000 Sample.fresh))) in
  let ok := Sample.exits 0 EmptyString in
  (installs (Sample.mounting 100) Sample.sink = 0%nat
   /\ progress (Sample.mounting 100) Sample.sink = 0%nat)
  /\ (installs (Sample.installable_platform ok) Sample.sink = 1%nat
      /\ progress (Sample.installable_platform ok) Sample.sink = 1%nat)
  /\ (installs (Sample.installable_platform ok) Sample.no_sink = 1%nat
      /\ progress (Sample.installable_platform ok) Sample.no_sink = 0%nat).
Proof.
  intros installs progress ok.
  assert (Hcase : forall P server ready,
            has_sshfs P "primary" Sample.session (snd (start_impl_session P Sample.fresh)) =
              (Ok ready, snd (has_sshfs P "primary" Sample.session
                                (snd (start_impl_session P Sample.fresh)))) ->
            start_impl_session P Sample.fresh =
              (Ok Sample.session, snd (start_impl_session P Sample.fresh)) ->
            installs P server = (if ready then 0 else 1)%nat
            /\ progress P server = (if ready then 0 else if server_ptr server then 1 else 0)%nat).
  { intros P server ready Hprobe Hsession.
    destruct (start_impl_installs_iff_not_ready P server 300000 Sample.fresh
                _ _ Sample.session ready Hsession Hprobe)
      as (Hi & Hn & after & Hfinal & Hai & Han).
    unfold installs, progress. rewrite Hfinal, !occurrences_app, Hi, Hn, Hai, Han.
    destruct ready; [now split|]. destruct (server_ptr server); now split. }
  split; [|split].
  - apply (Hcase (Sample.mounting 100) Sample.sink true); reflexivity.
  - apply (Hcase (Sample.installable_platform ok) Sample.sink false); reflexivity.
  - apply (Hcase (Sample.installable_platform ok) Sample.no_sink false); reflexivity.
Defined.

(** C6, the claim as the spec states it, at a subprocess that writes the
    magic string in two pieces: all standard output received holds the
    magic string, and the call has not come back; when the subprocess then
    ends, the call comes back with the subprocess gone. *)
Lemma split_token_is_missed_counterexample :
  let gone := finished (mkProcessState (Some 0) None) in
  contains "Connected" (stdout_received Sample.split_token) = true
  /\ fst (start_and_block_until_connected (Sample.launched Sample.split_token)) =
       Stuck waits_forever
  /\ fst (start_and_block_until_connected (Sample.launched (Sample.split_token ++ [gone]))) =
       Ok tt
  /\ running (Sample.the_process
                (snd (start_and_block_until_connected
                        (Sample.launched (Sample.split_token ++ [gone]))))) = false.
Proof.
  cbv zeta. split; [reflexivity|]. split; [reflexivity|]. split; reflexivity.
Qed.

Lemma start_and_block_until_connected_wakes_witness :
  let gone := finished (mkProcessState (Some 1) None) in
  let connects := [standard_error "warning"; standard_output "sshfs_server: ";
                   standard_output "x Connected to primary"; gone] in
  let dies := [standard_output "connected? no"; gone; standard_output "Connected"] in
  (fst (start_and_block_until_connected (Sample.launched connects)) = Ok tt
   /\ running (Sample.the_process
                 (snd (start_and_block_until_connected (Sample.launched connects)))) = true)
  /\ (fst (start_and_block_until_connected (Sample.launched dies)) = Ok tt
      /\ running (Sample.the_process
                    (snd (start_and_block_until_connected (Sample.launched dies)))) = false)
  /\ fst (start_and_block_until_connected (Sample.launched Sample.split_token)) =
       Stuck waits_forever.
Proof.
  intros gone connects dies.
  split; [|split].
  - destruct (start_and_block_until_connected_wakes (Sample.launched connects)
                (Sample.the_process (Sample.launched connects))
                [standard_error "warning"; standard_output "sshfs_server: "] [gone]
                (standard_output "x Connected to primary") eq_refl eq_refl eq_refl)
      as (H & _).
    destruct (H eq_refl eq_refl) as (w' & p' & Hrun & Hp & _ & Hrunning & _).
    rewrite Hrun. unfold Sample.the_process. cbn [snd fst]. rewrite Hp. now split.
  - destruct (start_and_block_until_connected_wakes (Sample.launched dies)
                (Sample.the_process (Sample.launched dies))
                [standard_output "connected? no"] [standard_output "Connected"]
                gone eq_refl eq_refl eq_refl)
      as (H & _).
    destruct (H eq_refl eq_refl) as (w' & p' & Hrun & Hp & _ & Hrunning & _).
    rewrite Hrun. unfold Sample.the_process. cbn [snd fst]. rewrite Hp. now split.
  - destruct (start_and_block_until_connected_wakes (Sample.launched Sample.split_token)
                (Sample.the_process (Sample.launched Sample.split_token))
                Sample.split_token [] gone eq_refl eq_refl eq_refl)
      as (_ & H & _).
    exact (H eq_refl).
Defined.

(** ** Further properties of the probes and the installer *)

Section RemoteMore.

Variable P : Platform.
Variables (name : string) (session : SSHSession).

(** X1: an exception raised while the exit code of a probe is read leaves
    [has_sshfs] as it is, the exitless exception included, and no further
    probe runs. *)
Theorem has_sshfs_propagates_probe_exceptions (w : World) (e : exception) :
  let w1 := record_events [SessionExec "which snap"] w in
  let w2 := record_events [SessionExec "sudo snap list multipass-sshfs"] w1 in
  let w3 := record_events [SessionExec "[ -e /snap ]"] w2 in
  let probe1 := ssh_exit_code (session_exec P (trace w) session "which snap") None in
  let probe2 :=
    ssh_exit_code (session_exec P (trace w1) session "sudo snap list multipass-sshfs") None in
  let probe3 := ssh_exit_code (session_exec P (trace w2) session "[ -e /snap ]") None in
  (probe1 = Raises e -> has_sshfs P name session w = (Throw e, w1))
  /\ (probe1 = Value 0 -> probe2 = Raises e -> has_sshfs P name session w = (Throw e, w2))
  /\ (forall c2, probe1 = Value 0 -> probe2 = Value c2 -> c2 <> 0 -> probe3 = Raises e ->
        has_sshfs P name session w = (Throw e, w3)).
Proof.
  intros w1 w2 w3 probe1 probe2 probe3.
  split; [|split].
  - intros H1. unfold has_sshfs. run_session. fold w1 probe1. now rewrite H1.
  - intros H1 H2. unfold has_sshfs. run_session. fold w1 probe1. rewrite H1.
    cbn [Z.eqb negb]. fold w2 probe2. now rewrite H2.
  - intros c2 H1 H2 Hc2 H3. unfold has_sshfs. run_session. fold w1 probe1. rewrite H1.
    cbn [Z.eqb negb]. fold w2 probe2. rewrite H2, (eqb_nonzero _ Hc2).
    fold w3 probe3. now rewrite H3.
Qed.

(** X2: whatever the remote side answers, [has_sshfs] runs one, two or
    three commands, and they are the first ones of its three probes in the
    order of the source; it logs at most one record and does nothing else.
    The answer "ready" comes after two commands, "not ready" after all
    three. *)
Theorem has_sshfs_runs_a_prefix_of_the_probes (w : World) :
  exists (n : nat) (evs : list Event),
    trace (snd (has_sshfs P name session w)) = (trace w ++ evs)%list
    /\ commands evs = firstn (S n) probes
    /\ (n < 3)%nat
    /\ (occurrences is_log evs <= 1)%nat
    /\ length evs = (S n + occurrences is_log evs)%nat
    /\ (fst (has_sshfs P name session w) = Ok true -> n = 1%nat)
    /\ (fst (has_sshfs P name session w) = Ok false -> n = 2%nat).
Proof.
  unfold has_sshfs. run_session.
  destruct (ssh_exit_code (session_exec P (trace w) session "which snap") None) as [c1|e1].
  - destruct (negb (c1 =? 0)).
    + exists 0%nat. eexists. cbn [snd fst record_events trace this]. rewrite <- !app_assoc.
      split; [reflexivity|]. cbn. repeat split; try lia; discriminate.
    + match goal with |- context [ssh_exit_code ?proc None] =>
        destruct (ssh_exit_code proc None) as [c2|e2] end.
      * destruct (c2 =? 0).
        -- exists 1%nat. eexists. cbn [snd fst record_events trace this].
           rewrite <- !app_assoc. split; [reflexivity|].
           cbn. repeat split; try lia; discriminate.
        -- match goal with |- context [ssh_exit_code ?proc None] =>
             destruct (ssh_exit_code proc None) as [c3|e3] end.
           ++ destruct (negb (c3 =? 0)); exists 2%nat; eexists;
                cbn [snd fst record_events trace this]; rewrite <- !app_assoc;
                (split; [reflexivity|]); cbn; repeat split; try lia; discriminate.
           ++ exists 2%nat. eexists. cbn [snd fst record_events trace this].
              rewrite <- !app_assoc. split; [reflexivity|].
              cbn. repeat split; try lia; discriminate.
      * exists 1%nat. eexists. cbn [snd fst record_events trace this].
        rewrite <- !app_assoc. split; [reflexivity|].
        cbn. repeat split; try lia; discriminate.
  - exists 0%nat. eexists. cbn [snd fst record_events trace this].
    split; [reflexivity|]. cbn. repeat split; try lia; discriminate.
Qed.

Variable timeout : Z.

(** X3: the installer turns only the exitless exception into
    [SSHFSMissingError].  Any other exception raised while the exit code
    is read leaves the installer as it is, after the announcement and the
    install command and without a further log record; and an exception that
    leaves the installer is [SSHFSMissingError] or the one raised there. *)
Theorem install_sshfs_for_propagates_other_exceptions (w : World) :
  let announce :=
    Log lvl_info category ("Installing the multipass-sshfs snap in '" ++ name ++ "'") in
  let proc :=
    session_exec P (trace w ++ [announce])%list session "sudo snap install multipass-sshfs" in
  let w1 := record_events [announce; SessionExec "sudo snap install multipass-sshfs"] w in
  (forall e, ssh_exit_code proc (Some timeout) = Raises e ->
     (forall m, e <> ExitlessSSHProcessException m) ->
     install_sshfs_for P name session timeout w = (Throw e, w1))
  /\ (forall e w', install_sshfs_for P name session timeout w = (Throw e, w') ->
        e = SSHFSMissingError \/ ssh_exit_code proc (Some timeout) = Raises e).
Proof.
  intros announce proc w1.
  assert (Hw1 : record_events [SessionExec "sudo snap install multipass-sshfs"]
                  (record_events [announce] w) = w1)
    by (unfold w1; now rewrite record_events_app).
  split.
  - intros e Hexit Hother. unfold install_sshfs_for. run_session.
    fold announce. cbn [record_events trace this]. fold proc.
    rewrite Hexit. rewrite <- Hw1.
    destruct e; try reflexivity. now destruct (Hother what_arg).
  - intros e w'. unfold install_sshfs_for. run_session.
    fold announce. cbn [record_events trace this]. fold proc.
    destruct (ssh_exit_code proc (Some timeout)) as [c|e0].
    + destruct (negb (c =? 0)); intros H; inversion H. now left.
    + destruct e0; intros H; inversion H; subst; auto.
Qed.

End RemoteMore.

Lemma has_sshfs_propagates_probe_exceptions_witness :
  let child := Sample.server [] 100 in
  fst (has_sshfs (Sample.platform Sample.hangs Scenario.ok Scenario.ok Scenario.ok child)
                 "primary" Sample.session Sample.fresh) =
    Throw (ExitlessSSHProcessException "no exit status")
  /\ fst (has_sshfs (Sample.platform Scenario.ok Scenario.broken_channel Scenario.ok
                                     Scenario.ok child)
                    "primary" Sample.session Sample.fresh) =
       Throw (SSHException "channel closed")
  /\ fst (has_sshfs (Sample.platform Scenario.ok Scenario.no Sample.hangs Scenario.ok child)
                    "primary" Sample.session Sample.fresh) =
       Throw (ExitlessSSHProcessException "no exit status").
Proof.
  intros child. split; [|split].
  - destruct (has_sshfs_propagates_probe_exceptions
                (Sample.platform Sample.hangs Scenario.ok Scenario.ok Scenario.ok child)
                "primary" Sample.session Sample.fresh
                (ExitlessSSHProcessException "no exit status")) as (H & _).
    rewrite H; reflexivity.
  - destruct (has_sshfs_propagates_probe_exceptions
                (Sample.platform Scenario.ok Scenario.broken_channel Scenario.ok
                                 Scenario.ok child)
                "primary" Sample.session Sample.fresh
                (SSHException "channel closed")) as (_ & H & _).
    rewrite H; reflexivity.
  - destruct (has_sshfs_propagates_probe_exceptions
                (Sample.platform Scenario.ok Scenario.no Sample.hangs Scenario.ok child)
                "primary" Sample.session Sample.fresh
                (ExitlessSSHProcessException "no exit status")) as (_ & _ & H).
    rewrite (H 1); [reflexivity | reflexivity | reflexivity | discriminate | reflexivity].
Defined.

Lemma install_sshfs_for_propagates_other_exceptions_witness :
  fst (install_sshfs_for (Sample.installable_platform Scenario.broken_channel)
                         "primary" Sample.session 300000 Sample.fresh) =
    Throw (SSHException "channel closed").
Proof.
  destruct (install_sshfs_for_propagates_other_exceptions
              (Sample.installable_platform Scenario.broken_channel)
              "primary" Sample.session 300000 Sample.fresh) as (H & _).
  rewrite (H (SSHException "channel closed")); [reflexivity | reflexivity | discriminate].
Defined.

(** ** Further properties of starting *)

Lemma append_assoc_string (a b c : string) : (a ++ b) ++ c = a ++ (b ++ c).
Proof.
  induction a as [|ch a IH]; simpl; [reflexivity | now rewrite IH].
Qed.

(** The event loop over quiet events up to the first that makes it quit. *)
Lemma event_loop_exec_quiet (ev : ProcessEvent) (rest before : list ProcessEvent) :
  wakes ev = true ->
  forall (p : Process) (logs : list Event),
    unread_stdout p = EmptyString ->
    forallb is_quiet before = true ->
    event_loop_exec (before ++ ev :: rest) p logs =
      (Ok tt,
       mkProcess (child p) rest
                 (match ev with finished _ => false | _ => running p end)
                 EmptyString (unread_stderr p ++ stderr_received before)
                 (match ev with finished st => st | _ => process_state p end)
                 (finished_slots p) (error_slots p),
       (logs ++ match ev with
                | finished st => map (fun slot => log_event (slot st)) (finished_slots p)
                | _ => []
                end)%list).
Proof.
  intros Hev.
  induction before as [|e before IH]; intros p logs Hunread Hquiet.
  - cbn [app stderr_received].
    assert (Hnil : unread_stderr p ++ EmptyString = unread_stderr p).
    { induction (unread_stderr p) as [|ch s IHs]; simpl; [reflexivity | now rewrite IHs]. }
    rewrite Hnil.
    destruct ev as [chunk|chunk|err msg|st]; try discriminate.
    + cbn [event_loop_exec]. rewrite Hunread. cbn [append].
      cbn [wakes] in Hev. rewrite Hev, app_nil_r. reflexivity.
    + cbn [event_loop_exec deliver_finished child running unread_stdout unread_stderr
           process_state finished_slots error_slots].
      rewrite Hunread. reflexivity.
  - cbn [forallb] in Hquiet. apply andb_prop in Hquiet. destruct Hquiet as [He Hquiet].
    destruct e as [chunk|chunk|err msg|st]; try discriminate;
      cbn [app event_loop_exec stderr_received].
    + cbn [is_quiet] in He. apply negb_true_iff in He.
      rewrite Hunread. cbn [append]. rewrite He.
      rewrite IH; [|reflexivity|exact Hquiet].
      cbn [child running unread_stdout unread_stderr process_state finished_slots error_slots].
      reflexivity.
    + rewrite IH; [|exact Hunread|exact Hquiet].
      cbn [child running unread_stdout unread_stderr process_state finished_slots error_slots].
      rewrite append_assoc_string. reflexivity.
Qed.

Section LaunchMore.

Variable P : Platform.

(** The second part of [start_impl] up to its event loop. *)
Lemma start_impl_launch_loop (w : World) (address : string) :
  ssh_hostname (vm (this w)) (trace w) = Value address ->
  let cfg := set_host address (config (this w)) in
  let c := make_sshfs_server_process P (trace w ++ [SshHostname (Value address)])%list cfg in
  start_impl_launch P w =
    (let '(r, p', logs) := event_loop_exec (script c) (started_process P (this w) c) [] in
     (r, mkWorld (set_process (Some p') (set_config cfg (this w)))
                 (trace w ++ launch_events address cfg c ++ logs)%list)).
Proof.
  intros Haddress cfg c.
  unfold start_impl_launch, start_and_block_until_connected.
  cbv beta iota delta [bind ret throw log emit emit_all finish get_this modify_this
                       deref_process put_process platform_make_sshfs_server_process
                       connect_finished connect_error_occurred process_start vm_ssh_hostname].
  rewrite Haddress.
  cbn [record_events this trace set_process set_config process config new_process
       pending child finished_slots error_slots running unread_stdout unread_stderr
       process_state app].
  fold cfg. fold c.
  change (mkProcess c (script c) true EmptyString EmptyString (mkProcessState None None) _ _)
    with (started_process P (this w) c).
  destruct (event_loop_exec (script c) (started_process P (this w) c) []) as [[r p'] logs].
  unfold launch_events, record_events. cbn [this trace].
  unfold set_process, set_config.
  cbn [vm ssh_key_provider target lifecycle process config].
  rewrite <- !app_assoc. reflexivity.
Qed.

End LaunchMore.

Section StartMore.

Variable P : Platform.
Variables (server : ServerVariant) (timeout : Z).

Lemma start_impl_after_prepare (w w1 : World) :
  start_impl_prepare P server timeout w = (Ok tt, w1) ->
  start_impl P server timeout w =
    bind (start_impl_launch P) (fun _ => start_impl_check P) w1
  /\ this w1 = this w.
Proof.
  intros Hprepare. split.
  - unfold start_impl. now rewrite (bind_ok_at _ _ _ _ _ Hprepare).
  - pose proof (start_impl_prepare_keeps_this P server timeout w) as H.
    now rewrite Hprepare in H.
Qed.

Lemma start_impl_check_members (w : World) :
  same_members (this (snd (start_impl_check P w))) (this w).
Proof.
  unfold start_impl_check, same_members.
  cbv beta iota delta [bind ret throw deref_process read_all_standard_error put_process
                       modify_this].
  destruct (process (this w)) as [p|] eqn:Hp; [|now repeat split].
  destruct (exit_code_is (process_state p) 9); [now repeat split|].
  destruct (has_value (exit_code (process_state p)) || has_value (error (process_state p)));
    [|now repeat split].
  rewrite Hp. now repeat split.
Qed.

(** X4: when the machine cannot give its address at the second query, after
    the probes and the installer, [start_impl] throws the exception of the
    machine; the handler is as it was before the start and no subprocess
    has been made. *)
Theorem start_impl_address_failure (w w1 : World) (e : exception) :
  start_impl_prepare P server timeout w = (Ok tt, w1) ->
  ssh_hostname (vm (this w)) (trace w1) = Raises e ->
  start_impl P server timeout w = (Throw e, record_events [SshHostname (Raises e)] w1)
  /\ this (snd (start_impl P server timeout w)) = this w
  /\ occurrences is_launch (trace (snd (start_impl P server timeout w))) =
       occurrences is_launch (trace w).
Proof.
  intros Hprepare Haddress.
  destruct (start_impl_after_prepare _ _ Hprepare) as (Hstart & Hthis).
  assert (Hrun : start_impl P server timeout w =
                 (Throw e, record_events [SshHostname (Raises e)] w1)).
  { rewrite Hstart. apply bind_throw_at. apply start_impl_launch_unreachable.
    now rewrite Hthis. }
  rewrite Hrun. cbn [snd record_events this trace].
  split; [reflexivity|]. split; [exact Hthis|].
  destruct (start_impl_prepare_emits P server timeout w) as (before & Htr & Hall).
  rewrite Hprepare in Htr. cbn [snd] in Htr.
  rewrite Htr, !occurrences_app.
  rewrite (occurrences_none is_launch is_prepare_traffic before);
    [cbn; lia | intros ev; destruct ev; simpl; congruence | exact Hall].
Qed.

(** X5: a start whose first part succeeds, whose machine gives its address
    and whose subprocess writes, after output without the magic string, a
    chunk that holds it, returns normally.  The handler then holds the
    subprocess the platform made from the [config] with the new host, still
    running, with no exit code and no error, the events after the chunk
    not yet handled and its standard error unread; the trace ends with the
    address query, the making of the subprocess, the two records about its
    command line and its start. *)
Theorem start_impl_connects (w w1 : World) (address chunk : string)
        (before rest : list ProcessEvent) :
  start_impl_prepare P server timeout w = (Ok tt, w1) ->
  ssh_hostname (vm (this w)) (trace w1) = Value address ->
  let cfg := set_host address (config (this w)) in
  let c := make_sshfs_server_process P (trace w1 ++ [SshHostname (Value address)])%list cfg in
  script c = (before ++ standard_output chunk :: rest)%list ->
  forallb is_quiet before = true ->
  contains "Connected" chunk = true ->
  exists p',
    start_impl P server timeout w =
      (Ok tt, mkWorld (set_process (Some p') (set_config cfg (this w)))
                      (trace w1 ++ launch_events address cfg c)%list)
    /\ child p' = c /\ running p' = true /\ pending p' = rest
    /\ process_state p' = mkProcessState None None
    /\ unread_stderr p' = stderr_received before.
Proof.
  intros Hprepare Haddress cfg c Hscript Hquiet Htoken.
  destruct (start_impl_after_prepare _ _ Hprepare) as (Hstart & Hthis).
  rewrite <- Hthis in Haddress.
  pose proof (start_impl_launch_loop P w1 address Haddress) as Hlaunch.
  cbv zeta in Hlaunch. rewrite Hthis in Hlaunch. fold cfg c in Hlaunch.
  rewrite Hscript in Hlaunch.
  rewrite (event_loop_exec_quiet (standard_output chunk) rest before Htoken
             (started_process P (this w) c) [] eq_refl Hquiet) in Hlaunch.
  cbn [started_process child running unread_stderr process_state finished_slots error_slots
       append app] in Hlaunch.
  rewrite app_nil_r in Hlaunch.
  eexists. rewrite Hstart, (bind_ok_at _ _ _ _ _ Hlaunch).
  unfold start_impl_check.
  cbv beta iota delta [bind ret throw deref_process].
  cbn [this set_process process process_state exit_code_is exit_code error has_value orb].
  split; [reflexivity|]. now repeat split.
Qed.

(** X6: what a start throws whose subprocess ends during the wait, after
    output without the magic string, depends on the exit state alone:
    [SSHFSMissingError] for exit code 9; otherwise, when there is an exit
    code, 0 included, or an error, the [runtime_error] whose text ends with
    all the standard error the subprocess wrote, in the order written. *)
Theorem start_impl_subprocess_ends (w w1 : World) (address : string) (st : ProcessState)
        (before rest : list ProcessEvent) :
  start_impl_prepare P server timeout w = (Ok tt, w1) ->
  ssh_hostname (vm (this w)) (trace w1) = Value address ->
  let cfg := set_host address (config (this w)) in
  let c := make_sshfs_server_process P (trace w1 ++ [SshHostname (Value address)])%list cfg in
  script c = (before ++ finished st :: rest)%list ->
  forallb is_quiet before = true ->
  fst (start_impl P server timeout w) =
    if exit_code_is st 9 then Throw SSHFSMissingError
    else if has_value (exit_code st) || has_value (error st)
         then Throw (runtime_error (failure_message P st ++ ": " ++ stderr_received before))
         else Ok tt.
Proof.
  intros Hprepare Haddress cfg c Hscript Hquiet.
  destruct (start_impl_after_prepare _ _ Hprepare) as (Hstart & Hthis).
  rewrite <- Hthis in Haddress.
  pose proof (start_impl_launch_loop P w1 address Haddress) as Hlaunch.
  cbv zeta in Hlaunch. rewrite Hthis in Hlaunch. fold cfg c in Hlaunch.
  rewrite Hscript in Hlaunch.
  rewrite (event_loop_exec_quiet (finished st) rest before eq_refl
             (started_process P (this w) c) [] eq_refl Hquiet) in Hlaunch.
  cbn [started_process child running unread_stderr process_state finished_slots error_slots
       app map] in Hlaunch.
  change (EmptyString ++ stderr_received before) with (stderr_received before) in Hlaunch.
  assert (Hrecord : log_event
            (if completed_successfully P st
             then (lvl_info,
                   "Mount " ++ dq ++ target (this w) ++ dq ++ " in instance '" ++
                   vm_name (vm (this w)) ++ "' has stopped")
             else (lvl_warning,
                   "Mount " ++ dq ++ target (this w) ++ dq ++ " in instance '" ++
                   vm_name (vm (this w)) ++ "' has stopped unsuccessfully: " ++
                   failure_message P st)) = stopped_record P (this w) st).
  { unfold stopped_record. now destruct (completed_successfully P st). }
  rewrite Hrecord in Hlaunch.
  rewrite Hstart, (bind_ok_at _ _ _ _ _ Hlaunch).
  unfold start_impl_check.
  cbv beta iota delta [bind ret throw deref_process read_all_standard_error put_process
                       modify_this].
  cbn [this trace set_process process process_state unread_stderr].
  destruct (exit_code_is st 9); [reflexivity|].
  destruct (has_value (exit_code st) || has_value (error st)); reflexivity.
Qed.

(** X7: the wait of [start_impl] has no bound.  When the first part
    succeeds, the machine gives its address, and the subprocess neither
    ends nor writes a chunk that holds the magic string, [start_impl] does
    not come back, whatever its timeout. *)
Theorem start_impl_waits_without_bound (w w1 : World) (address : string) :
  start_impl_prepare P server timeout w = (Ok tt, w1) ->
  ssh_hostname (vm (this w)) (trace w1) = Value address ->
  let cfg := set_host address (config (this w)) in
  let c := make_sshfs_server_process P (trace w1 ++ [SshHostname (Value address)])%list cfg in
  forallb sleeps (script c) = true ->
  fst (start_impl P server timeout w) = Stuck waits_forever.
Proof.
  intros Hprepare Haddress cfg c Hsleeps.
  destruct (start_impl_after_prepare _ _ Hprepare) as (Hstart & Hthis).
  rewrite <- Hthis in Haddress.
  pose proof (start_impl_launch_loop P w1 address Haddress) as Hlaunch.
  cbv zeta in Hlaunch. rewrite Hthis in Hlaunch. fold cfg c in Hlaunch.
  pose proof (event_loop_exec_sleeps (script c) (started_process P (this w) c) []
                eq_refl Hsleeps) as Hloop.
  destruct (event_loop_exec (script c) (started_process P (this w) c) []) as [[r p'] logs].
  cbn [fst] in Hloop. subst r.
  rewrite Hstart. unfold bind. now rewrite Hlaunch.
Qed.

(** X8: [start_impl] returns normally only with a subprocess in the handler
    whose state holds no exit code and no error.  In particular a
    subprocess that has ended, with exit code 0 as with any other, makes
    [start_impl] throw. *)
Theorem start_impl_ok_means_no_exit_state (w w' : World) :
  start_impl P server timeout w = (Ok tt, w') ->
  exists p,
    process (this w') = Some p
    /\ exit_code (process_state p) = None
    /\ error (process_state p) = None.
Proof.
  unfold start_impl, bind.
  destruct (start_impl_prepare P server timeout w) as [[u|e|y] w1]; try discriminate.
  destruct (start_impl_launch P w1) as [[u'|e|y] w2]; try discriminate.
  unfold start_impl_check.
  cbv beta iota delta [bind ret throw deref_process read_all_standard_error put_process
                       modify_this].
  destruct (process (this w2)) as [p|] eqn:Hp; [|discriminate].
  destruct (exit_code_is (process_state p) 9); [discriminate|].
  destruct (exit_code (process_state p)) as [c|] eqn:Hc; cbn [has_value orb];
    [rewrite Hp; discriminate|].
  destruct (error (process_state p)) as [err|] eqn:Herr; cbn [has_value];
    [rewrite Hp; discriminate|].
  intros H. inversion H; subst. exists p. now repeat split.
Qed.

(** X9: when the probes answer "ready", [start_impl] does not use its
    arguments: with another reply stream and another timeout the run is
    the same. *)
Theorem start_impl_ready_ignores_arguments
        (w ws wp : World) (session : SSHSession)
        (server' : ServerVariant) (timeout' : Z) :
  start_impl_session P w = (Ok session, ws) ->
  has_sshfs P (vm_name (vm (this w))) session ws = (Ok true, wp) ->
  start_impl P server timeout w = start_impl P server' timeout' w.
Proof.
  intros Hsession Hprobe.
  assert (H : forall s t, start_impl_prepare P s t w = (Ok tt, wp)).
  { intros s t. unfold start_impl_prepare. cbv beta iota delta [bind get_this].
    now rewrite Hsession, Hprobe. }
  unfold start_impl.
  now rewrite (bind_ok_at _ _ _ _ _ (H server timeout)),
              (bind_ok_at _ _ _ _ _ (H server' timeout')).
Qed.

End StartMore.

Section StartFrame.

Variable P : Platform.
Variables (server : ServerVariant) (timeout : Z).

(** X10: [start_impl] changes nothing of the handler but [process] and the
    host of [config]: the machine, the key provider, the target and the
    life-cycle state are kept, and [config] is the one it was or that one
    with a new host. *)
Theorem start_impl_keeps_the_members (w : World) :
  let final := this (snd (start_impl P server timeout w)) in
  same_members final (this w)
  /\ (config final = config (this w)
      \/ exists address, config final = set_host address (config (this w))).
Proof.
  cbv zeta. unfold start_impl. cbv beta iota delta [bind].
  pose proof (start_impl_prepare_keeps_this P server timeout w) as Hthis.
  destruct (start_impl_prepare P server timeout w) as [[u|e|y] w1]; cbn [snd] in *;
    try (rewrite Hthis; split; [now repeat split | now left]).
  destruct (ssh_hostname (vm (this w1)) (trace w1)) as [address|e] eqn:Haddress.
  - pose proof (start_impl_launch_loop P w1 address Haddress) as Hlaunch.
    cbv zeta in Hlaunch. rewrite Hlaunch.
    destruct (event_loop_exec _ _ _) as [[r p'] logs].
    rewrite <- Hthis.
    destruct r as [u'|e|y]; cbn [snd this];
      try (split; [now repeat split | right; now exists address]).
    split.
    + match goal with |- same_members (this (snd (start_impl_check P ?w2))) _ =>
        destruct (start_impl_check_members P w2) as (H1 & H2 & H3 & H4) end.
      unfold same_members. now rewrite H1, H2, H3, H4.
    + right. exists address. now rewrite start_impl_check_keeps_config.
  - rewrite (start_impl_launch_unreachable P w1 e Haddress).
    cbn [snd record_events this]. rewrite Hthis. split; [now repeat split | now left].
Qed.

(** X11: [start_impl] never asks the subprocess to terminate and never
    waits for its end, also when it throws after the subprocess was made;
    and it makes at most one subprocess. *)
Theorem start_impl_never_terminates (w : World) :
  let final := trace (snd (start_impl P server timeout w)) in
  occurrences is_terminate final = occurrences is_terminate (trace w)
  /\ occurrences is_wait final = occurrences is_wait (trace w)
  /\ (occurrences is_launch final <= S (occurrences is_launch (trace w)))%nat.
Proof.
  cbv zeta.
  assert (Hevs : exists evs,
            trace (snd (start_impl P server timeout w)) = (trace w ++ evs)%list
            /\ occurrences is_terminate evs = 0%nat
            /\ occurrences is_wait evs = 0%nat
            /\ (occurrences is_launch evs <= 1)%nat).
  { destruct (start_impl_prepare_emits P server timeout w) as (before & Htr & Hall).
    assert (Hbefore : forall kind,
              (forall ev, is_prepare_traffic ev = true -> kind ev = false) ->
              kind (SshHostname (ssh_hostname (vm (this w)) (trace w))) = false ->
              occurrences kind
                ([SshHostname (ssh_hostname (vm (this w)) (trace w))] ++ before)%list
              = 0%nat).
    { intros kind Hk Hq. rewrite occurrences_app, (occurrences_none kind _ before Hk Hall).
      unfold occurrences. cbn [filter]. now rewrite Hq. }
    assert (Hb1 := Hbefore is_terminate ltac:(intros ev; destruct ev; simpl; congruence)
                     eq_refl).
    assert (Hb2 := Hbefore is_wait ltac:(intros ev; destruct ev; simpl; congruence)
                     eq_refl).
    assert (Hb3 := Hbefore is_launch ltac:(intros ev; destruct ev; simpl; congruence)
                     eq_refl).
    clear Hbefore.
    remember ([SshHostname (ssh_hostname (vm (this w)) (trace w))] ++ before)%list as pre
      eqn:Hpre.
    clear Hpre Hall.
    unfold start_impl. unfold bind at 1.
    destruct (start_impl_prepare P server timeout w) as [[u|e|y] w1]; cbn [snd] in *;
      try (exists pre; split; [exact Htr|]; rewrite Hb1, Hb2, Hb3; repeat split; lia).
    assert (Hafter : forall after kind,
              forallb is_process_traffic after = true ->
              (forall ev, is_process_traffic ev = true -> kind ev = false) ->
              occurrences kind after = 0%nat).
    { intros after kind Hall' Hk. exact (occurrences_none kind _ after Hk Hall'). }
    destruct (ssh_hostname (vm (this w1)) (trace w1)) as [address|e] eqn:Haddress.
    - destruct (start_impl_launch_run P w1 address Haddress) as (after & Hrun & Hafter' & _).
      assert (Hfinal : trace (snd (bind (start_impl_launch P) (fun _ => start_impl_check P) w1))
                       = trace (snd (start_impl_launch P w1))).
      { unfold bind. destruct (start_impl_launch P w1) as [[u'|e|y] w2]; cbn [snd]; auto.
        apply start_impl_check_silent. }
      rewrite Hfinal, Hrun, Htr.
      exists (pre ++
              [SshHostname (Value address);
               MakeProcess (set_host address (config (this w1)))] ++ after)%list.
      split; [now rewrite <- app_assoc|].
      rewrite !occurrences_app, Hb1, Hb2, Hb3.
      rewrite (Hafter after is_terminate Hafter'),
              (Hafter after is_wait Hafter'),
              (Hafter after is_launch Hafter');
        try (intros ev; destruct ev; simpl; congruence).
      cbn. repeat split; lia.
    - unfold bind. rewrite (start_impl_launch_unreachable P w1 e Haddress).
      cbn [snd record_events trace]. rewrite Htr.
      exists (pre ++ [SshHostname (Raises e)])%list.
      split; [now rewrite <- app_assoc|].
      rewrite !occurrences_app, Hb1, Hb2, Hb3. cbn. repeat split; lia. }
  destruct Hevs as (evs & Htr & H1 & H2 & H3).
  rewrite Htr, !occurrences_app, H1, H2. repeat split; lia.
Qed.

(** X12: after a start that failed in the session, in a probe or in the
    installer, a freshly constructed handler still has no subprocess, and
    [stop_impl] on it logs its record and then dereferences the null
    pointer. *)
Theorem stop_impl_after_failed_start
        (v : VirtualMachine) (keys : SSHKeyProvider) (tgt : string) (mount : VMMount)
        (tr : Trace) (w' : World) (e : exception) :
  start_impl_prepare P server timeout (SSHFSMountHandler_ctor v keys tgt mount tr) =
    (Throw e, w') ->
  stop_impl w' =
    (Stuck null_dereference,
     record_events [Log lvl_info category
                      ("Stopping mount " ++ dq ++ tgt ++ dq ++ " in instance '" ++
                       vm_name v ++ "'")] w').
Proof.
  intros Hfail.
  destruct (start_impl_prepare_failed P server timeout _ _ _ Hfail) as (_ & Hprocess & _).
  pose proof (start_impl_prepare_keeps_this P server timeout
                (SSHFSMountHandler_ctor v keys tgt mount tr)) as Hthis.
  rewrite Hfail in Hthis. cbn [snd] in Hthis.
  unfold stop_impl. run_process.
  cbn [record_events this trace]. rewrite Hprocess, Hthis. reflexivity.
Qed.

End StartFrame.

(** X13: [stop_impl] does not give up the subprocess: after it, whether
    it returned or threw, the handler holds the same child and the same
    [config].  When the subprocess was running and is gone within the
    deadline it is marked as not running, with the exit state it finished
    with. *)
Theorem stop_impl_keeps_the_subprocess (w : World) (p : Process) :
  process (this w) = Some p ->
  exists p',
    process (this (snd (stop_impl w))) = Some p'
    /\ child p' = child p
    /\ config (this (snd (stop_impl w))) = config (this w)
    /\ same_members (this (snd (stop_impl w))) (this w)
    /\ (forall st, on_terminate (child p) 5000 = Some st -> running p = true ->
          running p' = false /\ process_state p' = st).
Proof.
  intros Hp.
  unfold stop_impl. run_process.
  repeat (progress cbn [record_events this trace set_process process] || rewrite Hp).
  destruct (on_terminate (child p) 5000) as [st|].
  - destruct (running p) eqn:Hrunning;
      cbn [deliver_finished negb snd record_events this trace set_process process config].
    + eexists. split; [reflexivity|]. split; [reflexivity|]. split; [reflexivity|].
      split; [now repeat split|]. intros st' Hst _. now inversion Hst.
    + exists p. split; [exact Hp|]. split; [reflexivity|]. split; [reflexivity|].
      split; [now repeat split|]. intros st' _ Hst. discriminate.
  - cbn [negb snd record_events this trace set_process process config].
    repeat (progress cbn [snd record_events this trace set_process process config]
            || rewrite Hp).
    eexists. split; [reflexivity|]. split; [reflexivity|]. split; [reflexivity|].
    split; [now repeat split|]. intros st' Hst. discriminate.
Qed.

(** What the event loop of [start_impl] logs up to the event that makes it
    quit. *)
Lemma event_loop_exec_records (P : Platform) (h : SSHFSMountHandler)
      (ev : ProcessEvent) (rest before : list ProcessEvent) :
  wakes ev = true ->
  forall (p : Process) (logs : list Event),
    unread_stdout p = EmptyString ->
    finished_slots p = finished_slots (started_process P h (child p)) ->
    error_slots p = error_slots (started_process P h (child p)) ->
    forallb sleeps before = true ->
    fst (fst (event_loop_exec (before ++ ev :: rest) p logs)) = Ok tt
    /\ snd (event_loop_exec (before ++ ev :: rest) p logs) =
         (logs ++ error_records P h before ++
          match ev with
          | finished st => [stopped_record P h st]
          | _ => []
          end)%list.
Proof.
  intros Hev.
  induction before as [|e before IH]; intros p logs Hunread Hfin Herr Hsleep.
  - cbn [app error_records].
    destruct ev as [chunk|chunk|err msg|st]; try discriminate.
    + cbn [event_loop_exec]. rewrite Hunread. cbn [append].
      cbn [wakes] in Hev. rewrite Hev, app_nil_r. now split.
    + cbn [event_loop_exec deliver_finished fst snd]. rewrite Hfin.
      cbn [started_process finished_slots map].
      split; [reflexivity|]. unfold stopped_record, log_event.
      now destruct (completed_successfully P st).
  - cbn [forallb] in Hsleep. apply andb_prop in Hsleep. destruct Hsleep as [He Hsleep].
    unfold sleeps in He. apply negb_true_iff in He.
    destruct e as [chunk|chunk|err msg|st]; try discriminate;
      cbn [app event_loop_exec error_records].
    + rewrite Hunread. cbn [append]. cbn [wakes] in He. rewrite He.
      apply IH; auto.
    + apply IH; auto.
    + match goal with |- context [event_loop_exec _ ?q ?l] =>
        destruct (IH q l Hunread Hfin Herr Hsleep) as (Hok & Hlogs) end.
      split; [exact Hok|]. rewrite Hlogs, Herr.
      cbn [started_process error_slots map]. rewrite <- !app_assoc. reflexivity.
Qed.

Section StartLogs.

Variable P : Platform.
Variables (server : ServerVariant) (timeout : Z).

(** X14: during the wait of [start_impl] every error the subprocess
    reports is logged once, at level error, in the order of the reports,
    and does not end the wait; the end of the subprocess is logged once,
    after them.  Nothing else is added to the trace between the start of
    the subprocess and the return of [start_impl]. *)
Theorem start_impl_logs_errors_and_end (w w1 : World) (address : string)
        (before rest : list ProcessEvent) (ev : ProcessEvent) :
  start_impl_prepare P server timeout w = (Ok tt, w1) ->
  ssh_hostname (vm (this w)) (trace w1) = Value address ->
  let cfg := set_host address (config (this w)) in
  let c := make_sshfs_server_process P (trace w1 ++ [SshHostname (Value address)])%list cfg in
  script c = (before ++ ev :: rest)%list ->
  forallb sleeps before = true ->
  wakes ev = true ->
  trace (snd (start_impl P server timeout w)) =
    (trace w1 ++ launch_events address cfg c ++ error_records P (this w) before ++
     match ev with
     | finished st => [stopped_record P (this w) st]
     | _ => []
     end)%list.
Proof.
  intros Hprepare Haddress cfg c Hscript Hsleep Hev.
  destruct (start_impl_after_prepare P server timeout _ _ Hprepare) as (Hstart & Hthis).
  rewrite <- Hthis in Haddress.
  pose proof (start_impl_launch_loop P w1 address Haddress) as Hlaunch.
  cbv zeta in Hlaunch. rewrite Hthis in Hlaunch. fold cfg c in Hlaunch.
  rewrite Hscript in Hlaunch.
  destruct (event_loop_exec_records P (this w) ev rest before Hev
              (started_process P (this w) c) [] eq_refl eq_refl eq_refl Hsleep)
    as (Hok & Hlogs).
  destruct (event_loop_exec (before ++ ev :: rest) (started_process P (this w) c) [])
    as [[r p'] logs].
  cbn [fst snd] in Hok, Hlogs. subst r logs. cbn [app] in Hlaunch.
  rewrite Hstart, (bind_ok_at _ _ _ _ _ Hlaunch), start_impl_check_silent.
  reflexivity.
Qed.

End StartLogs.

(** ** The further properties at sample runs *)

Lemma start_impl_address_failure_witness :
  fst (start_impl (Sample.mounting 100) Sample.sink 300000 Scenario.vanishing) =
    Throw (SSHException "instance is not running")
  /\ process (this (snd (start_impl (Sample.mounting 100) Sample.sink 300000
                                    Scenario.vanishing))) = None.
Proof.
  pose (P := Sample.mounting 100).
  destruct (start_impl_address_failure P Sample.sink 300000 Scenario.vanishing
              (snd (start_impl_prepare P Sample.sink 300000 Scenario.vanishing))
              (SSHException "instance is not running") eq_refl eq_refl)
    as (Hrun & Hthis & _).
  fold P. split; [now rewrite Hrun | now rewrite Hthis].
Defined.

Lemma start_impl_connects_witness :
  fst (start_impl (Sample.mounting 100) Sample.sink 300000 Sample.fresh) = Ok tt.
Proof.
  pose (P := Sample.mounting 100).
  destruct (start_impl_connects P Sample.sink 300000 Sample.fresh
              (snd (start_impl_prepare P Sample.sink 300000 Sample.fresh))
              "10.0.0.2" "Connected" [standard_error "fuse: warning"] []
              eq_refl eq_refl eq_refl eq_refl eq_refl) as (p' & Hrun & _).
  fold P. now rewrite Hrun.
Defined.

Lemma start_impl_subprocess_ends_witness :
  let events := [standard_error "fuse: "; standard_output "starting";
                 standard_error "bad mount point";
                 finished (mkProcessState (Some 0) None)] in
  fst (start_impl (Sample.failing events) Sample.sink 300000 Sample.fresh) =
    Throw (runtime_error "Process returned exit code: fuse: bad mount point").
Proof.
  intros events.
  pose (P := Sample.failing events).
  etransitivity;
    [exact (start_impl_subprocess_ends P Sample.sink 300000 Sample.fresh
              (snd (start_impl_prepare P Sample.sink 300000 Sample.fresh))
              "10.0.0.2" (mkProcessState (Some 0) None)
              [standard_error "fuse: "; standard_output "starting";
               standard_error "bad mount point"] []
              eq_refl eq_refl eq_refl eq_refl)
    | reflexivity].
Defined.

Lemma start_impl_waits_without_bound_witness :
  fst (start_impl (Sample.failing Sample.split_token) Sample.sink 300000 Sample.fresh) =
    Stuck waits_forever.
Proof.
  pose (P := Sample.failing Sample.split_token).
  exact (start_impl_waits_without_bound P Sample.sink 300000 Sample.fresh
           (snd (start_impl_prepare P Sample.sink 300000 Sample.fresh))
           "10.0.0.2" eq_refl eq_refl eq_refl).
Defined.

Lemma start_impl_ok_means_no_exit_state_witness :
  exists p,
    process (this (Sample.mounted 100)) = Some p
    /\ exit_code (process_state p) = None
    /\ error (process_state p) = None.
Proof.
  exact (start_impl_ok_means_no_exit_state (Sample.mounting 100) Sample.sink 300000
           Sample.fresh (Sample.mounted 100) eq_refl).
Defined.

Lemma start_impl_ready_ignores_arguments_witness :
  start_impl (Sample.mounting 100) Sample.sink 300000 Sample.fresh =
  start_impl (Sample.mounting 100) Sample.no_sink 1 Sample.fresh.
Proof.
  pose (P := Sample.mounting 100).
  exact (start_impl_ready_ignores_arguments P Sample.sink 300000 Sample.fresh
           (snd (start_impl_session P Sample.fresh))
           (snd (has_sshfs P "primary" Sample.session
                   (snd (start_impl_session P Sample.fresh))))
           Sample.session Sample.no_sink 1 eq_refl eq_refl).
Defined.

Lemma stop_impl_after_failed_start_witness :
  fst (stop_impl (snd (start_impl_prepare Sample.snapless_platform Sample.sink 300000
                         Sample.fresh))) = Stuck null_dereference.
Proof.
  etransitivity;
    [apply (f_equal fst);
     exact (stop_impl_after_failed_start Sample.snapless_platform Sample.sink 300000
              Sample.machine Sample.keys "/mnt/src" Sample.mount []
              (snd (start_impl_prepare Sample.snapless_platform Sample.sink 300000
                      Sample.fresh))
              (runtime_error (snap_missing_message "primary")) eq_refl)
    | reflexivity].
Defined.

Lemma stop_impl_keeps_the_subprocess_witness :
  exists p',
    process (this (snd (stop_impl (Sample.mounted 100)))) = Some p'
    /\ child p' = Sample.server [standard_error "fuse: warning"; standard_output "Connected"]
                                100
    /\ running p' = false.
Proof.
  destruct (stop_impl_keeps_the_subprocess (Sample.mounted 100)
              (Sample.the_process (Sample.mounted 100)) eq_refl)
    as (p' & Hp & Hchild & _ & _ & Hgone).
  exists p'. split; [exact Hp|]. split; [exact Hchild|].
  exact (proj1 (Hgone (mkProcessState (Some 0) None) eq_refl eq_refl)).
Defined.

Lemma start_impl_logs_errors_and_end_witness :
  let gone := mkProcessState None (Some (mkProcessError 1 "Process crashed")) in
  let events := [error_occurred 1 "Process crashed"; standard_output "bye"; finished gone] in
  let P := Sample.failing events in
  let w1 := snd (start_impl_prepare P Sample.sink 300000 Sample.fresh) in
  trace (snd (start_impl P Sample.sink 300000 Sample.fresh)) =
    (trace w1 ++
     launch_events "10.0.0.2" (set_host "10.0.0.2" (config (this Sample.fresh)))
                   (Sample.server events 100) ++
     [error_record P (this Sample.fresh) 1 "Process crashed";
      stopped_record P (this Sample.fresh) gone])%list.
Proof.
  intros gone events P w1.
  exact (start_impl_logs_errors_and_end P Sample.sink 300000 Sample.fresh w1 "10.0.0.2"
           [error_occurred 1 "Process crashed"; standard_output "bye"] [] (finished gone)
           eq_refl eq_refl eq_refl eq_refl eq_refl).
Defined.
